(** * Station-2290 bot: conversation machine, session store and dialogue router

    A shallow embedding of
    - [src/models/conversation.model.ts]  (the [ConversationManager] session store),
    - [src/models/conversationMachine.ts] (the XState [conversationMachine]),
    - [src/services/messageHandler.service.ts] (the per-state handlers of the router),
    - [src/services/audio.service.ts] (the encoding table),
    and the properties of the specification that concern them.

    Conventions.
    - A JavaScript [number] that holds an identifier, a quantity or a
      millisecond timestamp is an integer of [Z].
    - A JavaScript string is a [string] whose characters are the code units
      U+0000..U+00FF; [===] on strings is equality of the code units.
    - [undefined] / an optional field is [None]. *)

From stdpp Require Import gmap strings list fin_maps.
From Stdlib Require Import ZArith Ascii String.

Local Open Scope string_scope.
Local Open Scope list_scope.
Local Open Scope Z_scope.

(** ** Types of the backend API

    [Product], [Customer], [Order] and [Category] are aliases of the generated
    schema types of [src/types/api.types.ts].  The modelled code reads a
    product's [id] and [name] only; the other values are passed around
    unopened. *)

Class ApiTypes := {
  Product : Type;
  product_id : Product -> Z;
  product_name : Product -> string;
  Customer : Type;
  Order : Type;
  Category : Type;
}.

(** [interface CartItem { product: Product; quantity: number }] *)
Record CartItem `{ApiTypes} := mkCartItem {
  product : Product;
  quantity : Z;
}.

(* ===================================================================== *)
(** ** The conversation machine ([conversationMachine.ts])               *)
(* ===================================================================== *)

Module Machine.
Section WithApi.
Context `{api : ApiTypes}.

(** [customerInfo: { firstName?: string; lastName?: string; email?: string }] *)
Record CustomerInfo := mkCustomerInfo {
  firstName : option string;
  lastName : option string;
  email : option string;
}.

(** [interface ConversationContext] *)
Record ConversationContext := mkContext {
  userId : string;
  cart : list CartItem;
  customer : option Customer;
  pendingOrder : option Order;
  selectedCategory : option Z;
  customerInfo : CustomerInfo;
  error : option string;
}.

(** The union [ConversationEvent], in the order of its declaration. *)
Inductive ConversationEvent :=
  | START
  | VIEW_MENU
  | SELECT_CATEGORY (categoryId : Z)
  | ADD_TO_CART (p : Product) (qty : Z)
  | VIEW_CART
  | CHECKOUT
  | PROVIDE_NAME (first last : string)
  | PROVIDE_EMAIL (mail : string)
  | CONFIRM_ORDER
  | CANCEL_ORDER
  | ORDER_PLACED (order : Order)
  | CLEAR_CART
  | BACK
  | ERROR (err : string)
  | RESET.

(** What an actor of the machine can receive: a declared event, the
    completion or failure of one of its two invoked services ([onDone] gets
    the service's [output], [onError] the thrown [Error], of which the machine
    reads the [message]), or the [CUSTOMER_FOUND] object that
    [handleCheckoutState] passes to [actor.send] (the actor is typed [any]
    there, so the call type-checks).  A service reports to the actor only
    while the state that invoked it is active: leaving the state stops it. *)
Inductive Received :=
  | Ev (e : ConversationEvent)
  | done_createCustomer (output : Customer)
  | error_createCustomer (message : string)
  | done_placeOrder (output : Order)
  | error_placeOrder (message : string)
  | CUSTOMER_FOUND (found : Customer).

(** The [type] field of a received event object. *)
Definition eventType (r : Received) : string :=
  match r with
  | Ev START => "START"
  | Ev VIEW_MENU => "VIEW_MENU"
  | Ev (SELECT_CATEGORY _) => "SELECT_CATEGORY"
  | Ev (ADD_TO_CART _ _) => "ADD_TO_CART"
  | Ev VIEW_CART => "VIEW_CART"
  | Ev CHECKOUT => "CHECKOUT"
  | Ev (PROVIDE_NAME _ _) => "PROVIDE_NAME"
  | Ev (PROVIDE_EMAIL _) => "PROVIDE_EMAIL"
  | Ev CONFIRM_ORDER => "CONFIRM_ORDER"
  | Ev CANCEL_ORDER => "CANCEL_ORDER"
  | Ev (ORDER_PLACED _) => "ORDER_PLACED"
  | Ev CLEAR_CART => "CLEAR_CART"
  | Ev BACK => "BACK"
  | Ev (ERROR _) => "ERROR"
  | Ev RESET => "RESET"
  | done_createCustomer _ => "xstate.done.actor.createCustomer"
  | error_createCustomer _ => "xstate.error.actor.createCustomer"
  | done_placeOrder _ => "xstate.done.actor.placeOrder"
  | error_placeOrder _ => "xstate.error.actor.placeOrder"
  | CUSTOMER_FOUND _ => "CUSTOMER_FOUND"
  end.

(** The [type] tags of the union [ConversationEvent]. *)
Definition declaredEventTypes : list string :=
  [ "START"; "VIEW_MENU"; "SELECT_CATEGORY"; "ADD_TO_CART"; "VIEW_CART";
    "CHECKOUT"; "PROVIDE_NAME"; "PROVIDE_EMAIL"; "CONFIRM_ORDER";
    "CANCEL_ORDER"; "ORDER_PLACED"; "CLEAR_CART"; "BACK"; "ERROR"; "RESET" ].

(** The state nodes.  [checkout] is the compound state, its argument the
    active child. *)
Inductive CheckoutState :=
  | checkingCustomer
  | collectingName
  | collectingEmail
  | creatingCustomer
  | confirmingOrder
  | placingOrder.

Inductive StateValue :=
  | idle
  | greeting
  | viewingMenu
  | selectingProducts
  | reviewingCart
  | checkout (sub : CheckoutState)
  | orderCompleted.

(** A snapshot: the state value and the context. *)
Definition Snapshot : Type := StateValue * ConversationContext.

(** [context: ({ input }) => ({ userId: input.userId, cart: [], customerInfo: {} })] *)
Definition emptyInfo : CustomerInfo := mkCustomerInfo None None None.

Definition initialContext (uid : string) : ConversationContext :=
  mkContext uid [] None None None emptyInfo None.

Definition initialSnapshot (uid : string) : Snapshot := (idle, initialContext uid).

(** *** The [assign] actions *)

Definition assign_cart (f : ConversationContext -> list CartItem)
    (c : ConversationContext) : ConversationContext :=
  mkContext (userId c) (f c) (customer c) (pendingOrder c)
            (selectedCategory c) (customerInfo c) (error c).

Definition assign_selectedCategory (v : option Z) (c : ConversationContext) :=
  mkContext (userId c) (cart c) (customer c) (pendingOrder c)
            v (customerInfo c) (error c).

Definition assign_customerInfo (f : CustomerInfo -> CustomerInfo)
    (c : ConversationContext) :=
  mkContext (userId c) (cart c) (customer c) (pendingOrder c)
            (selectedCategory c) (f (customerInfo c)) (error c).

Definition assign_customer (v : option Customer) (c : ConversationContext) :=
  mkContext (userId c) (cart c) v (pendingOrder c)
            (selectedCategory c) (customerInfo c) (error c).

Definition assign_error (v : option string) (c : ConversationContext) :=
  mkContext (userId c) (cart c) (customer c) (pendingOrder c)
            (selectedCategory c) (customerInfo c) v.

(** [[...context.cart, { product: event.product, quantity: event.quantity }]] *)
Definition appendLine (p : Product) (q : Z) (c : ConversationContext) : list CartItem :=
  cart c ++ [mkCartItem _ p q].

(** The [cart] assignment of [selectingProducts.on.ADD_TO_CART]: [find] a line
    with the product's id; if there is one, [map] over the cart adding the
    quantity to every line of that id, else append a line. *)
Definition sameProduct (p : Product) (item : CartItem) : bool :=
  product_id (product item) =? product_id p.

Definition mergeLine (p : Product) (q : Z) (c : ConversationContext) : list CartItem :=
  match List.find (sameProduct p) (cart c) with
  | Some _ =>
      List.map (fun item =>
                  if sameProduct p item
                  then mkCartItem _ (product item) (quantity item + q)
                  else item)
               (cart c)
  | None => cart c ++ [mkCartItem _ p q]
  end.

(** The six assignments shared by [orderCompleted.on.RESET] and the root
    [on.RESET]. *)
Definition resetContext (c : ConversationContext) : ConversationContext :=
  mkContext (userId c) [] None None None emptyInfo None.

(** [pendingOrder: event.output, cart: []] of [placingOrder.invoke.onDone]. *)
Definition orderPlaced (o : Order) (c : ConversationContext) : ConversationContext :=
  mkContext (userId c) [] (customer c) (Some o)
            (selectedCategory c) (customerInfo c) (error c).

(** *** Transitions

    [onNode s c r] is the transition that the [on] / [invoke] table of the
    active leaf state node [s] selects for [r], if any: the target state (the
    node itself when the transition has no target) and the context after the
    transition's actions.  A transition whose guard is false is not selected. *)
Definition onNode (s : StateValue) (c : ConversationContext) (r : Received)
    : option Snapshot :=
  match s, r with
  | idle, Ev START => Some (greeting, c)
  | idle, Ev VIEW_MENU => Some (viewingMenu, c)

  | greeting, Ev VIEW_MENU => Some (viewingMenu, c)
  | greeting, Ev (ADD_TO_CART p q) =>
      Some (selectingProducts, assign_cart (appendLine p q) c)

  | viewingMenu, Ev (SELECT_CATEGORY k) =>
      Some (selectingProducts, assign_selectedCategory (Some k) c)
  | viewingMenu, Ev VIEW_CART => Some (reviewingCart, c)
  | viewingMenu, Ev BACK => Some (greeting, c)

  | selectingProducts, Ev (ADD_TO_CART p q) =>
      Some (selectingProducts, assign_cart (mergeLine p q) c)
  | selectingProducts, Ev VIEW_CART => Some (reviewingCart, c)
  | selectingProducts, Ev VIEW_MENU => Some (viewingMenu, c)
  | selectingProducts, Ev CHECKOUT => Some (checkout checkingCustomer, c)

  | reviewingCart, Ev CHECKOUT =>
      if (0 <? Z.of_nat (List.length (cart c)))
      then Some (checkout checkingCustomer, c)
      else None
  | reviewingCart, Ev VIEW_MENU => Some (viewingMenu, c)
  | reviewingCart, Ev CLEAR_CART => Some (viewingMenu, assign_cart (fun _ => []) c)
  | reviewingCart, Ev (ADD_TO_CART p q) =>
      Some (selectingProducts, assign_cart (appendLine p q) c)

  | checkout collectingName, Ev (PROVIDE_NAME f l) =>
      Some (checkout collectingEmail,
            assign_customerInfo
              (fun i => mkCustomerInfo (Some f) (Some l) (email i)) c)
  | checkout collectingName, Ev CANCEL_ORDER => Some (reviewingCart, c)

  | checkout collectingEmail, Ev (PROVIDE_EMAIL m) =>
      Some (checkout creatingCustomer,
            assign_customerInfo
              (fun i => mkCustomerInfo (firstName i) (lastName i) (Some m)) c)
  | checkout collectingEmail, Ev CANCEL_ORDER => Some (reviewingCart, c)

  | checkout creatingCustomer, done_createCustomer out =>
      Some (checkout confirmingOrder, assign_customer (Some out) c)
  | checkout creatingCustomer, error_createCustomer msg =>
      Some (checkout collectingEmail, assign_error (Some msg) c)

  | checkout confirmingOrder, Ev CONFIRM_ORDER => Some (checkout placingOrder, c)
  | checkout confirmingOrder, Ev CANCEL_ORDER => Some (reviewingCart, c)

  | checkout placingOrder, done_placeOrder out =>
      Some (orderCompleted, orderPlaced out c)
  | checkout placingOrder, error_placeOrder msg =>
      Some (checkout confirmingOrder, assign_error (Some msg) c)

  | orderCompleted, Ev START => Some (greeting, c)
  | orderCompleted, Ev VIEW_MENU => Some (viewingMenu, c)
  | orderCompleted, Ev RESET => Some (idle, resetContext c)

  | _, _ => None
  end.

(** The [on] table of the machine's root node: [ERROR] has actions and no
    target, [RESET] targets [.idle]. *)
Definition onRoot (s : StateValue) (c : ConversationContext) (r : Received)
    : option Snapshot :=
  match r with
  | Ev (ERROR msg) => Some (s, assign_error (Some msg) c)
  | Ev RESET => Some (idle, resetContext c)
  | _ => None
  end.

(** One microstep on an event: the transition of the deepest state node that
    has an enabled one (the compound [checkout] node has no [on] table of its
    own, so the leaf is followed by the root), or no change. *)
Definition transition (snap : Snapshot) (r : Received) : Snapshot :=
  match onNode snap.1 snap.2 r with
  | Some snap' => snap'
  | None =>
      match onRoot snap.1 snap.2 r with
      | Some snap' => snap'
      | None => snap
      end
  end.

(** The eventless ([always]) transitions: [checkingCustomer] only, the first
    guarded by [!!context.customer]. *)
Definition always (snap : Snapshot) : option Snapshot :=
  match snap.1 with
  | checkout checkingCustomer =>
      match customer snap.2 with
      | Some _ => Some (checkout confirmingOrder, snap.2)
      | None => Some (checkout collectingName, snap.2)
      end
  | _ => None
  end.

(** The snapshots passed through while the eventless transitions are taken,
    and the snapshot in which they stop. *)
Fixpoint settlePath (fuel : nat) (snap : Snapshot) : list Snapshot :=
  match fuel with
  | O => []
  | S n =>
      match always snap with
      | Some snap' => snap' :: settlePath n snap'
      | None => []
      end
  end.

Fixpoint settle (fuel : nat) (snap : Snapshot) : Snapshot :=
  match fuel with
  | O => snap
  | S n =>
      match always snap with
      | Some snap' => settle n snap'
      | None => snap
      end
  end.

(** No chain of eventless transitions is longer than one step (see
    [settle_stable]); the bound is the number of leaf state nodes. *)
Definition macrostepFuel : nat := 12.

(** [actor.send(event)]: the microstep of the event, then the eventless
    transitions until none is enabled.  [sendPath] lists every snapshot the
    actor passes through on the way, the first being the transition's target. *)
Definition sendPath (snap : Snapshot) (r : Received) : list Snapshot :=
  let snap1 := transition snap r in
  snap1 :: settlePath macrostepFuel snap1.

Definition send (snap : Snapshot) (r : Received) : Snapshot :=
  settle macrostepFuel (transition snap r).

(** A run of events from a snapshot. *)
Definition run (snap : Snapshot) (rs : list Received) : Snapshot :=
  List.fold_left send rs snap.

(** The snapshots an actor started for [uid] can be in. *)
Inductive reachable (uid : string) : Snapshot -> Prop :=
  | reachable_init : reachable uid (initialSnapshot uid)
  | reachable_send snap r : reachable uid snap -> reachable uid (send snap r).

End WithApi.
End Machine.

(* ===================================================================== *)
(** ** The session store ([conversation.model.ts])                       *)
(* ===================================================================== *)

Module Manager.
Section WithApi.
Context `{api : ApiTypes}.

(** [enum ConversationStep] *)
Inductive ConversationStep :=
  | IDLE
  | GREETING
  | VIEWING_MENU
  | SELECTING_PRODUCTS
  | REVIEWING_CART
  | COLLECTING_CUSTOMER_INFO
  | CONFIRMING_ORDER
  | ORDER_COMPLETED.

(** ['name' | 'email' | 'phone'] *)
Inductive AwaitedInfo := awaitName | awaitEmail | awaitPhone.

(** The [context] object of a [ConversationState]. *)
Record StepContext := mkStepContext {
  selectedCategory : option Z;
  awaitingConfirmation : option bool;
  awaitingCustomerInfo : option AwaitedInfo;
}.

(** [interface ConversationState]; [lastActivity] is the [Date]'s
    [getTime()], in milliseconds. *)
Record ConversationState := mkState {
  userId : string;
  currentStep : ConversationStep;
  cart : list CartItem;
  customer : option Customer;
  pendingOrder : option Order;
  lastActivity : Z;
  context : StepContext;
}.

(** [private readonly SESSION_TIMEOUT = 30 * 60 * 1000] *)
Definition SESSION_TIMEOUT : Z := 30 * 60 * 1000.

(** [isSessionValid]; [now] is the value of [new Date().getTime()] it reads. *)
Definition isSessionValid (now : Z) (conversation : ConversationState) : bool :=
  (now - lastActivity conversation) <? SESSION_TIMEOUT.

(** [conversation.lastActivity = new Date()] *)
Definition setLastActivity (t : Z) (s : ConversationState) : ConversationState :=
  mkState (userId s) (currentStep s) (cart s) (customer s) (pendingOrder s)
          t (context s).

Definition setCart (l : list CartItem) (s : ConversationState) : ConversationState :=
  mkState (userId s) (currentStep s) l (customer s) (pendingOrder s)
          (lastActivity s) (context s).

(** The object literal [newConversation] of [getConversation]. *)
Definition newConversation (uid : string) (t : Z) : ConversationState :=
  mkState uid IDLE [] None None t (mkStepContext None None None).

(** [getConversation(userId)].  [now] is the clock value that
    [isSessionValid] reads (only when an entry exists) and [stamp] the value
    of the [new Date()] that is stored as [lastActivity] afterwards.  The
    session returned is the object held by the map, so the map is returned
    with it. *)
Definition getConversation (conversations : gmap string ConversationState)
    (uid : string) (now stamp : Z)
    : ConversationState * gmap string ConversationState :=
  match conversations !! uid with
  | Some existing =>
      if isSessionValid now existing
      then let s := setLastActivity stamp existing in (s, <[uid := s]> conversations)
      else let s := newConversation uid stamp in (s, <[uid := s]> conversations)
  | None =>
      let s := newConversation uid stamp in (s, <[uid := s]> conversations)
  end.

(** [addToCart(userId, product, quantity)]: the first line with the
    product's id gets the quantity added in place, else a line is pushed.
    [stamp2] is the second [new Date()]. *)
Fixpoint addFirst (p : Product) (q : Z) (l : list CartItem) : option (list CartItem) :=
  match l with
  | [] => None
  | item :: rest =>
      if product_id (product item) =? product_id p
      then Some (mkCartItem _ (product item) (quantity item + q) :: rest)
      else option_map (cons item) (addFirst p q rest)
  end.

Definition addToCart (conversations : gmap string ConversationState)
    (uid : string) (p : Product) (q : Z) (now stamp stamp2 : Z)
    : gmap string ConversationState :=
  let '(conversation, conversations') := getConversation conversations uid now stamp in
  let cart' :=
    match addFirst p q (cart conversation) with
    | Some l => l
    | None => cart conversation ++ [mkCartItem _ p q]
    end in
  <[uid := setLastActivity stamp2 (setCart cart' conversation)]> conversations'.

(** [resetConversation(userId)] *)
Definition resetConversation (conversations : gmap string ConversationState)
    (uid : string) : gmap string ConversationState :=
  delete uid conversations.

End WithApi.
End Manager.

(* ===================================================================== *)
(** ** JavaScript string helpers used by the router                      *)
(* ===================================================================== *)

Module Js.

(** The characters [String.prototype.trim] removes, among the code units
    below 256: TAB, LF, VT, FF, CR, SPACE and NBSP. *)
Definition isWhiteSpace (ch : ascii) : bool :=
  let n := N_of_ascii ch in
  ((9 <=? n) && (n <=? 13) || (n =? 32) || (n =? 160))%N.

Fixpoint trimStart (s : string) : string :=
  match s with
  | EmptyString => EmptyString
  | String ch rest => if isWhiteSpace ch then trimStart rest else s
  end.

Fixpoint trimEnd (s : string) : string :=
  match s with
  | EmptyString => EmptyString
  | String ch rest =>
      match trimEnd rest with
      | EmptyString => if isWhiteSpace ch then EmptyString else String ch EmptyString
      | rest' => String ch rest'
      end
  end.

(** [s.trim()] *)
Definition trim (s : string) : string := trimEnd (trimStart s).

(** [s.includes(sub)] *)
Fixpoint includes (s sub : string) : bool :=
  if String.prefix sub s then true
  else match s with
       | EmptyString => false
       | String _ rest => includes rest sub
       end.

End Js.

(* ===================================================================== *)
(** ** The dialogue router ([messageHandler.service.ts])                 *)
(* ===================================================================== *)

Module Router.
Section WithApi.
Context `{api : ApiTypes}.

(** [interface OrderItem { productName: string; quantity: number }]
    ([ai.service.ts]) *)
Record OrderItem := mkOrderItem {
  productName : string;
  itemQuantity : Z;
}.

(** What the collaborators answer during one run of a handler; [inr] is a
    rejected promise with the error's message.
    - [coffeeShopApi.getProducts()] and [getCategories()] rethrow,
    - [coffeeShopApi.getCustomerByPhone] catches every error and answers
      [null],
    - [aiService.parseOrderFromMessage] catches every error and answers []. *)
Record Collaborators := mkCollaborators {
  getProducts : list Product + string;
  getCategories : list Category + string;
  getCustomerByPhone : string -> option Customer;
  parseOrderFromMessage : string -> list Product -> list OrderItem;
}.

(** The requests made to [whatsappService].  A text with a literal body
    keeps the body; a composed text keeps the values it is composed from; a
    button set keeps its body and the button ids. *)
Inductive Reply :=
  | Text (to body : string)
  | CartEmptyText (to : string)
  | CartText (to : string) (lines : list CartItem)
  | ConfirmationText (to : string) (lines : list CartItem) (who : option Customer)
  | Buttons (to body : string) (ids : list string)
  | CategoryList (to : string) (rows : list Category).

(** The part of the world a handler acts on: the user's actor (its current
    snapshot), the events passed to [actor.send] so far and the requests made
    to the messaging service so far (it is taken to accept every request). *)
Record World := mkWorld {
  actor : Machine.Snapshot;
  sent : list Machine.Received;
  outbox : list Reply;
}.

(** An [async] handler: a state transformer that returns a value or throws. *)
Definition Task (A : Type) : Type := World -> (A + string) * World.

#[export] Instance task_ret : MRet Task := fun A x w => (inl x, w).

#[export] Instance task_bind : MBind Task := fun A B k m w =>
  match m w with
  | (inl x, w') => k x w'
  | (inr e, w') => (inr e, w')
  end.

(** [await p] for a promise with a known outcome. *)
Definition await {A} (outcome : A + string) : Task A := fun w => (outcome, w).

(** [try { body } catch (error) { handler }] *)
Definition tryCatch {A} (body : Task A) (handler : string -> Task A) : Task A :=
  fun w =>
    match body w with
    | (inl x, w') => (inl x, w')
    | (inr e, w') => handler e w'
    end.

(** [actor.send(event)] *)
Definition actorSend (r : Machine.Received) : Task unit := fun w =>
  (inl tt, mkWorld (Machine.send (actor w) r) (sent w ++ [r]) (outbox w)).

(** [actor.getSnapshot()] *)
Definition getSnapshot : Task Machine.Snapshot := fun w => (inl (actor w), w).

(** A request to [whatsappService]. *)
Definition reply (m : Reply) : Task unit := fun w =>
  (inl tt, mkWorld (actor w) (sent w) (outbox w ++ [m])).

(** [for (const x of l) { body }] *)
Fixpoint forOf {A} (l : list A) (body : A -> Task unit) : Task unit :=
  match l with
  | [] => mret tt
  | x :: rest => body x ;; forOf rest body
  end.

Definition lf : string := String (ascii_of_nat 10) EmptyString.

(** [showCategories] *)
Definition showCategories (env : Collaborators) (uid : string) : Task unit :=
  tryCatch
    (categories ← await (getCategories env);
     if (Z.of_nat (List.length categories) =? 0)
     then reply (Text uid "Sorry, no categories available at the moment.")
     else reply (CategoryList uid categories))
    (fun _ => reply (Text uid
       "Sorry, I couldn't load the menu categories. Please try again later.")).

(** [showCart] *)
Definition showCart (env : Collaborators) (uid : string) : Task unit :=
  snapshot ← getSnapshot;
  let cart := Machine.cart snapshot.2 in
  if (Z.of_nat (List.length cart) =? 0)
  then reply (CartEmptyText uid) ;; showCategories env uid
  else
    reply (CartText uid cart) ;;
    reply (Buttons uid "Ready to order?" ["checkout"; "back_to_menu"; "clear_cart"]).

(** [confirmOrder] *)
Definition confirmOrder (uid : string) : Task unit :=
  snapshot ← getSnapshot;
  reply (ConfirmationText uid (Machine.cart snapshot.2) (Machine.customer snapshot.2)) ;;
  reply (Buttons uid "Confirm your order:" ["confirm_order"; "cancel_order"]).

(** [handleCheckoutState] *)
Definition handleCheckoutState (env : Collaborators) (uid : string) : Task unit :=
  match getCustomerByPhone env uid with
  | Some customer =>
      actorSend (Machine.CUSTOMER_FOUND customer) ;;
      confirmOrder uid
  | None =>
      reply (Text uid
        ("I need a few details to complete your order." ++ lf ++ lf ++
         "What's your first name?")%string)
  end.

(** [handleCollectingEmailState] *)
Definition handleCollectingEmailState (uid input : string) : Task unit :=
  let email := Js.trim input in
  if negb (Js.includes email "@") || negb (Js.includes email ".")
  then reply (Text uid "Please provide a valid email address.")
  else
    actorSend (Machine.Ev (Machine.PROVIDE_EMAIL email)) ;;
    reply (Text uid "Creating your customer profile...").

(** [products.find(p => p.name === item.productName)] *)
Definition findByName (products : list Product) (item : OrderItem) : option Product :=
  List.find (fun p => String.eqb (product_name p) (productName item)) products.

(** [processNaturalOrderRequest] *)
Definition processNaturalOrderRequest (env : Collaborators) (uid message : string)
    : Task unit :=
  tryCatch
    (products ← await (getProducts env);
     let orderItems := parseOrderFromMessage env message products in
     if (Z.of_nat (List.length orderItems) =? 0)
     then reply (Text uid
            "I couldn't understand your order. Could you please be more specific about what you'd like to order?")
     else
       forOf orderItems (fun item =>
         match findByName products item with
         | Some product =>
             actorSend (Machine.Ev (Machine.ADD_TO_CART product (itemQuantity item)))
         | None => mret tt
         end) ;;
       showCart env uid)
    (fun _ => reply (Text uid
       "Sorry, I had trouble processing your order. Please try selecting items from the menu.")).

(** [services.placeOrder] and [services.createCustomer] return what the
    backend call returns and rethrow what it throws; the invoking state's
    [onDone] then gets the value as [event.output], its [onError] the error.
    The argument is the outcome of [coffeeShopApi.createOrder], respectively
    [coffeeShopApi.createCustomer]. *)
Definition placeOrderSettled (outcome : Order + string) : Machine.Received :=
  match outcome with
  | inl order => Machine.done_placeOrder order
  | inr message => Machine.error_placeOrder message
  end.

Definition createCustomerSettled (outcome : Customer + string) : Machine.Received :=
  match outcome with
  | inl customer => Machine.done_createCustomer customer
  | inr message => Machine.error_createCustomer message
  end.

(** The events a run of a handler hands to the actor. *)
Definition eventsSent (t : Task unit) (w : World) : list Machine.Received :=
  List.skipn (List.length (sent w)) (sent (t w).2).

End WithApi.
End Router.

(* ===================================================================== *)
(** ** Measures on carts and event lists, and a concrete API instance   *)
(* ===================================================================== *)

Section CartMeasures.
Context `{api : ApiTypes}.

(** The product ids of the lines of a cart, in order. *)
Definition lineIds (l : list CartItem) : list Z :=
  List.map (fun item => product_id (product item)) l.

(** The cart invariant of the data model: no two lines share a product. *)
Definition uniqueProducts (l : list CartItem) : Prop := NoDup (lineIds l).

(** The quantity a cart holds of a product, over all of its lines. *)
Fixpoint quantityOf (pid : Z) (l : list CartItem) : Z :=
  match l with
  | [] => 0
  | item :: rest =>
      (if product_id (product item) =? pid then quantity item else 0)
      + quantityOf pid rest
  end.

(** The quantity of a product requested by a list of events. *)
Fixpoint requestedOf (pid : Z) (rs : list Machine.Received) : Z :=
  match rs with
  | [] => 0
  | Machine.Ev (Machine.ADD_TO_CART p q) :: rest =>
      (if product_id p =? pid then q else 0) + requestedOf pid rest
  | _ :: rest => requestedOf pid rest
  end.

Definition isAddToCart (r : Machine.Received) : Prop :=
  match r with
  | Machine.Ev (Machine.ADD_TO_CART _ _) => True
  | _ => False
  end.

(** The parsed pairs the natural-order path is to act on, in the words of
    the specification: those whose name is the name of a catalog product. *)
Definition matchesCatalog (products : list Product) (item : Router.OrderItem) : Prop :=
  Exists (fun p => product_name p = Router.productName item) products.

#[export] Instance matchesCatalog_dec products item :
  Decision (matchesCatalog products item).
Proof. unfold matchesCatalog. apply _. Defined.

Definition matched (products : list Product) (items : list Router.OrderItem)
    : list Router.OrderItem :=
  filter (matchesCatalog products) items.

(** An event answers a parsed pair when it is an [ADD_TO_CART] of a catalog
    product of that name with the pair's quantity. *)
Definition answers (products : list Product) (item : Router.OrderItem)
    (r : Machine.Received) : Prop :=
  exists p, In p products
            /\ product_name p = Router.productName item
            /\ r = Machine.Ev (Machine.ADD_TO_CART p (Router.itemQuantity item)).

(** The events the loop of [processNaturalOrderRequest] sends, item by item. *)
Definition addEvents (products : list Product) (items : list Router.OrderItem)
    : list Machine.Received :=
  List.flat_map
    (fun item =>
       match Router.findByName products item with
       | Some product =>
           [Machine.Ev (Machine.ADD_TO_CART product (Router.itemQuantity item))]
       | None => []
       end)
    items.

End CartMeasures.

(** A small instance of the API types: a product is its id and name, a
    customer a name, an order an order number, a category a name. *)
Definition demoApi : ApiTypes :=
  {| Product := Z * string;
     product_id := fst;
     product_name := snd;
     Customer := string;
     Order := Z;
     Category := string |}.

Module Demo.
#[local] Existing Instance demoApi.

Definition latte : Product := (42, "Latte").
Definition mocha : Product := (7, "Mocha").
Definition catalog : list Product := [latte; mocha].

(** A customer starts, orders two lattes in words, goes back to the menu and
    to the greeting, and orders three more lattes in words. *)
Definition repeatedOrder : list Machine.Received :=
  [ Machine.Ev Machine.START;
    Machine.Ev (Machine.ADD_TO_CART latte 2);
    Machine.Ev Machine.VIEW_MENU;
    Machine.Ev Machine.BACK;
    Machine.Ev (Machine.ADD_TO_CART latte 3) ].

(** The same product added in [greeting] and again from [reviewingCart]. *)
Definition addWhileReviewing : list Machine.Received :=
  [ Machine.Ev Machine.START;
    Machine.Ev (Machine.ADD_TO_CART latte 2);
    Machine.Ev Machine.VIEW_CART;
    Machine.Ev (Machine.ADD_TO_CART latte 3) ].

(** A context that already holds a customer and one cart line. *)
Definition knownCustomer : Machine.ConversationContext :=
  Machine.mkContext "15550001" [mkCartItem _ latte 1] (Some "Ana") None None
                    Machine.emptyInfo None.

(** The backend knows the sender; the parser names a latte, a product that is
    not in the catalog, and a mocha. *)
Definition env : Router.Collaborators :=
  Router.mkCollaborators
    (inl catalog)
    (inl ["Coffee"])
    (fun _ => Some "Ana")
    (fun _ _ => [ Router.mkOrderItem "Latte" 2;
                  Router.mkOrderItem "latte" 1;
                  Router.mkOrderItem "Mocha" 3 ]).

(** The world of a new customer whose actor waits for a name. *)
Definition collectingNameWorld : Router.World :=
  Router.mkWorld
    (Machine.checkout Machine.collectingName, Machine.initialContext "15550001")
    [] [].

(** The world of a customer in [greeting] with an empty cart. *)
Definition greetingWorld : Router.World :=
  Router.mkWorld (Machine.greeting, Machine.initialContext "15550001") [] [].

(** A stored session last used at time 0. *)
Definition oldSession : Manager.ConversationState :=
  Manager.mkState "15550001" Manager.REVIEWING_CART [mkCartItem _ latte 1]
                  (Some "Ana") None 0 (Manager.mkStepContext None None None).

End Demo.

(* ===================================================================== *)
(** ** The other operations of the session store                         *)
(* ===================================================================== *)

Module ManagerOps.
Section WithApi.
Context `{api : ApiTypes}.
Import Manager.

(** [removeFromCart(userId, productId)]: the cart of the session that
    [getConversation] hands out is replaced by its [filter]; [stamp2] is the
    second [new Date()]. *)
Definition removeFromCart (conversations : gmap string ConversationState)
    (uid : string) (productId : Z) (now stamp stamp2 : Z)
    : gmap string ConversationState :=
  let '(conversation, conversations') := getConversation conversations uid now stamp in
  let cart' :=
    List.filter (fun item => negb (product_id (product item) =? productId))
                (cart conversation) in
  <[uid := setLastActivity stamp2 (setCart cart' conversation)]> conversations'.

(** [clearCart(userId)] *)
Definition clearCart (conversations : gmap string ConversationState)
    (uid : string) (now stamp stamp2 : Z) : gmap string ConversationState :=
  let '(conversation, conversations') := getConversation conversations uid now stamp in
  <[uid := setLastActivity stamp2 (setCart [] conversation)]> conversations'.

(** One turn of the loop of [cleanupExpiredSessions]. *)
Definition sweepEntry (now : Z) (m : gmap string ConversationState)
    (entry : string * ConversationState) : gmap string ConversationState :=
  if SESSION_TIMEOUT <? now - lastActivity entry.2
  then delete entry.1 m
  else m.

(** [cleanupExpiredSessions()]: [now] is read once, then every entry of the
    map is visited and deleted when its idle time exceeds the timeout. *)
Definition cleanupExpiredSessions (conversations : gmap string ConversationState)
    (now : Z) : gmap string ConversationState :=
  List.fold_left (sweepEntry now) (map_to_list conversations) conversations.

(** The sessions of a map satisfy a property. *)
Definition allSessions (P : ConversationState -> Prop)
    (m : gmap string ConversationState) : Prop :=
  forall uid s, m !! uid = Some s -> P s.

End WithApi.
End ManagerOps.

(* ===================================================================== *)
(** ** Conditions on the snapshots of the machine                        *)
(* ===================================================================== *)

Section SnapshotConditions.
Context `{api : ApiTypes}.
Import Machine.

(** What the checkout steps rely on: a customer where an order is confirmed
    or placed, the collected names where the email is asked for, the three
    collected fields where the customer is created, and an empty cart with
    the placed order where the order is completed. *)
Definition consistent (snap : Snapshot) : Prop :=
  match snap.1 with
  | checkout confirmingOrder | checkout placingOrder =>
      customer snap.2 <> None
  | checkout collectingEmail =>
      firstName (customerInfo snap.2) <> None
      /\ lastName (customerInfo snap.2) <> None
  | checkout creatingCustomer =>
      firstName (customerInfo snap.2) <> None
      /\ lastName (customerInfo snap.2) <> None
      /\ email (customerInfo snap.2) <> None
  | orderCompleted =>
      cart snap.2 = [] /\ pendingOrder snap.2 <> None /\ customer snap.2 <> None
  | checkout checkingCustomer => False
  | _ => True
  end.

(** The events that empty a cart. *)
Definition emptiesCart (s : StateValue) (r : Received) : Prop :=
  r = Ev RESET
  \/ (s = reviewingCart /\ r = Ev CLEAR_CART)
  \/ (s = checkout placingOrder /\ exists o, r = done_placeOrder o).

(** The number of lines of a cart that hold a product. *)
Fixpoint linesOf (pid : Z) (l : list CartItem) : Z :=
  match l with
  | [] => 0
  | item :: rest =>
      (if product_id (product item) =? pid then 1 else 0) + linesOf pid rest
  end.

End SnapshotConditions.

(* ===================================================================== *)
(** ** More JavaScript string helpers                                    *)
(* ===================================================================== *)

Module JsText.

(** [toLowerCase] on the code units below 256: A-Z and the capital letters
    U+00C0..U+00DE (U+00D7, the multiplication sign, is no letter) move up by
    32. *)
Definition lowerChar (ch : ascii) : ascii :=
  let n := N_of_ascii ch in
  if ((65 <=? n) && (n <=? 90)
      || (192 <=? n) && (n <=? 222) && negb (n =? 215))%N
  then ascii_of_N (n + 32)
  else ch.

Fixpoint toLowerCase (s : string) : string :=
  match s with
  | EmptyString => EmptyString
  | String ch rest => String (lowerChar ch) (toLowerCase rest)
  end.

(** [s.split(sep)] for a separator of one character: never an empty array. *)
Fixpoint split (sep : ascii) (s : string) : list string :=
  match s with
  | EmptyString => [EmptyString]
  | String ch rest =>
      if Ascii.eqb ch sep
      then EmptyString :: split sep rest
      else match split sep rest with
           | piece :: pieces => String ch piece :: pieces
           | [] => [String ch EmptyString]
           end
  end.

(** [l.join(sep)] *)
Fixpoint join (sep : string) (l : list string) : string :=
  match l with
  | [] => EmptyString
  | [piece] => piece
  | piece :: rest => (piece ++ sep ++ join sep rest)%string
  end.

(** [a || b] on strings: the empty string is falsy. *)
Definition orElse (a b : string) : string :=
  match a with
  | EmptyString => b
  | _ => a
  end.

(** A string holds a character. *)
Fixpoint hasChar (sep : ascii) (s : string) : bool :=
  match s with
  | EmptyString => false
  | String ch rest => Ascii.eqb ch sep || hasChar sep rest
  end.

(** The last character of a string, if any. *)
Fixpoint lastChar (s : string) : option ascii :=
  match s with
  | EmptyString => None
  | String ch EmptyString => Some ch
  | String _ rest => lastChar rest
  end.

End JsText.

(* ===================================================================== *)
(** ** The other handlers of the router and its dispatcher               *)
(* ===================================================================== *)

Module Handlers.
Section WithApi.
Context `{api : ApiTypes}.
Import Router.

(** The bodies of the texts below are the literals of the source; a
    character above U+00FF is kept as its UTF-8 bytes. *)

(** [handleCollectingNameState]; [names[0]] exists because [split] never
    answers an empty array. *)
Definition handleCollectingNameState (uid input : string) : Task unit :=
  let names := JsText.split " " (Js.trim input) in
  let firstName := List.hd EmptyString names in
  let lastName := JsText.orElse (JsText.join " " (List.tl names)) firstName in
  actorSend (Machine.Ev (Machine.PROVIDE_NAME firstName lastName)) ;;
  reply (Text uid ("Thanks " ++ firstName ++ "! What's your email address?")%string).

(** [handleReviewingCartState] *)
Definition handleReviewingCartState (env : Collaborators) (uid action : string)
    : Task unit :=
  if String.eqb action "checkout" then
    actorSend (Machine.Ev Machine.CHECKOUT) ;;
    handleCheckoutState env uid
  else if String.eqb action "back_to_menu" then
    actorSend (Machine.Ev Machine.VIEW_MENU) ;;
    showCategories env uid
  else if String.eqb action "clear_cart" then
    actorSend (Machine.Ev Machine.CLEAR_CART) ;;
    reply (Text uid "🗑️ Cart cleared!") ;;
    showCategories env uid
  else showCart env uid.

(** [handleConfirmingOrderState] *)
Definition handleConfirmingOrderState (env : Collaborators) (uid action : string)
    : Task unit :=
  if String.eqb action "confirm_order" then
    actorSend (Machine.Ev Machine.CONFIRM_ORDER) ;;
    reply (Text uid "⏳ Placing your order...")
  else if String.eqb action "cancel_order" then
    actorSend (Machine.Ev Machine.CANCEL_ORDER) ;;
    reply (Text uid "Order cancelled. Your cart has been saved.") ;;
    showCart env uid
  else confirmOrder uid.

(** [interface Intent], as far as the router reads it: the [type] the
    language model answered (any string, or none) and [entities.products]. *)
Record Intent := mkIntent {
  intentType : option string;
  entityProducts : option (list string);
}.

(** [snapshot.value]: the key of an atomic top-level state is a string, the
    value of the compound [checkout] state is the object
    [{ checkout: <child> }]. *)
Inductive SnapshotValue :=
  | ValueString (name : string)
  | ValueObject (key child : string).

Definition checkoutChildName (sub : Machine.CheckoutState) : string :=
  match sub with
  | Machine.checkingCustomer => "checkingCustomer"
  | Machine.collectingName => "collectingName"
  | Machine.collectingEmail => "collectingEmail"
  | Machine.creatingCustomer => "creatingCustomer"
  | Machine.confirmingOrder => "confirmingOrder"
  | Machine.placingOrder => "placingOrder"
  end.

Definition snapshotValue (s : Machine.StateValue) : SnapshotValue :=
  match s with
  | Machine.idle => ValueString "idle"
  | Machine.greeting => ValueString "greeting"
  | Machine.viewingMenu => ValueString "viewingMenu"
  | Machine.selectingProducts => ValueString "selectingProducts"
  | Machine.reviewingCart => ValueString "reviewingCart"
  | Machine.checkout sub => ValueObject "checkout" (checkoutChildName sub)
  | Machine.orderCompleted => ValueString "orderCompleted"
  end.

(** [currentState === '<name>']: an object is never [===] to a string. *)
Definition valueIs (v : SnapshotValue) (name : string) : bool :=
  match v with
  | ValueString n => String.eqb n name
  | ValueObject _ _ => false
  end.

Section Dispatcher.

(** The collaborators of the dispatcher that are not modelled further:
    [aiService.detectIntent] and [aiService.generateResponse] (both catch
    every error and answer a value), [audioService.sendSynthesizedSpeech],
    and the handlers of four states. *)
Variable detectIntent : string -> Intent.
Variable generateResponse : Intent -> string.
Variable sendSynthesizedSpeech : string -> string -> Task unit.
Variable handleGreetingState : string -> string -> Intent -> Task unit.
Variable handleViewingMenuState : string -> string -> Intent -> Task unit.
Variable handleSelectingProductsState : string -> string -> Intent -> Task unit.
Variable handleOrderCompletedState : string -> string -> Intent -> Task unit.

(** [showMainMenu(userId, enableAudio = false)] *)
Definition showMainMenu (uid : string) (enableAudio : bool) : Task unit :=
  (if enableAudio
   then sendSynthesizedSpeech uid
          "Welcome to Coffee Shop! Would you like to view our menu, see promotions, or check your cart?"
   else mret tt) ;;
  reply (Buttons uid "Would you like to:"
           ["view_menu"; "view_promotions"; "view_cart"; "audio_mode"]).

(** [handleDefaultState] *)
Definition handleDefaultState (uid : string) (intent : Intent) : Task unit :=
  reply (Text uid (generateResponse intent)) ;;
  showMainMenu uid false.

(** [handleIdleState] *)
Definition handleIdleState (env : Collaborators) (uid messageText : string)
    (intent : Intent) : Task unit :=
  if bool_decide (intentType intent = Some "greeting") || String.eqb messageText "start"
  then
    actorSend (Machine.Ev Machine.START) ;;
    reply (Text uid
      ("☕ Welcome to Coffee Shop! I'm here to help you place your order."
       ++ lf ++ lf ++ "How can I assist you today?")%string) ;;
    showMainMenu uid false
  else if bool_decide (intentType intent = Some "menu") || String.eqb messageText "view_menu"
  then
    actorSend (Machine.Ev Machine.VIEW_MENU) ;;
    showCategories env uid
  else handleDefaultState uid intent.

(** The two global commands of [processMessageWithStateMachine]. *)
Definition isResetCommand (messageText : string) : bool :=
  String.eqb (JsText.toLowerCase messageText) "reset"
  || String.eqb (JsText.toLowerCase messageText) "start over".

Definition isSpeakRequest (messageText : string) : bool :=
  Js.includes (JsText.toLowerCase messageText) "speak"
  || Js.includes (JsText.toLowerCase messageText) "audio response".

(** [processMessageWithStateMachine], from the snapshot of the user's actor
    on. *)
Definition processMessageWithStateMachine (env : Collaborators)
    (uid messageText : string) : Task unit :=
  snapshot ← getSnapshot;
  let currentState := snapshotValue snapshot.1 in
  let intent := detectIntent messageText in
  if isResetCommand messageText then
    actorSend (Machine.Ev Machine.RESET) ;;
    reply (Text uid "🔄 Starting over! How can I help you today?") ;;
    showMainMenu uid false
  else if isSpeakRequest messageText then
    sendSynthesizedSpeech uid (generateResponse intent)
  else if valueIs currentState "idle" then
    handleIdleState env uid messageText intent
  else if valueIs currentState "greeting" then
    handleGreetingState uid messageText intent
  else if valueIs currentState "viewingMenu" then
    handleViewingMenuState uid messageText intent
  else if valueIs currentState "selectingProducts" then
    handleSelectingProductsState uid messageText intent
  else if valueIs currentState "reviewingCart" then
    handleReviewingCartState env uid messageText
  else if valueIs currentState "checkout.collectingName" then
    handleCollectingNameState uid messageText
  else if valueIs currentState "checkout.collectingEmail" then
    handleCollectingEmailState uid messageText
  else if valueIs currentState "checkout.confirmingOrder" then
    handleConfirmingOrderState env uid messageText
  else if valueIs currentState "orderCompleted" then
    handleOrderCompletedState uid messageText intent
  else handleDefaultState uid intent.

(** A task that does not reach the actor: it sends no event and leaves the
    snapshot as it is. *)
Definition keepsActor (t : Task unit) : Prop :=
  forall w, actor (t w).2 = actor w /\ sent (t w).2 = sent w.

End Dispatcher.

End WithApi.
End Handlers.

(** The replies of a run of a handler. *)
Definition repliesOf `{ApiTypes} (t : Router.Task unit) (w : Router.World)
    : list Router.Reply :=
  List.skipn (List.length (Router.outbox w)) (Router.outbox (t w).2).

(* ===================================================================== *)
(** ** The audio service ([audio.service.ts]): the encoding table        *)
(* ===================================================================== *)

Module Audio.

(** What a property read on the object literal [encodingMap] finds: a value
    of the table, or, for a key the table does not hold but
    [Object.prototype] does, the inherited member (an object or a function,
    so truthy). *)
Inductive Looked :=
  | Own (encoding : string)
  | Inherited (key : string).

Definition encodingMap : list (string * string) :=
  [ ("audio/amr", "AMR");
    ("audio/amr-wb", "AMR_WB");
    ("audio/mpeg", "MP3");
    ("audio/ogg", "OGG_OPUS");
    ("audio/opus", "OGG_OPUS");
    ("audio/wav", "LINEAR16") ].

(** The property names of [Object.prototype]. *)
Definition objectPrototypeKeys : list string :=
  [ "constructor"; "__defineGetter__"; "__defineSetter__"; "hasOwnProperty";
    "__lookupGetter__"; "__lookupSetter__"; "isPrototypeOf";
    "propertyIsEnumerable"; "toString"; "valueOf"; "__proto__";
    "toLocaleString" ].

Fixpoint ownProperty (key : string) (table : list (string * string)) : option string :=
  match table with
  | [] => None
  | (k, v) :: rest => if String.eqb k key then Some v else ownProperty key rest
  end.

(** [getAudioEncoding(mimeType)]:
    [encodingMap[mimeType.toLowerCase()] || 'ENCODING_UNSPECIFIED'] *)
Definition getAudioEncoding (mimeType : string) : Looked :=
  let key := JsText.toLowerCase mimeType in
  match ownProperty key encodingMap with
  | Some encoding => Own encoding
  | None =>
      if existsb (String.eqb key) objectPrototypeKeys
      then Inherited key
      else Own "ENCODING_UNSPECIFIED"
  end.

(** The encodings the speech request knows. *)
Definition knownEncodings : list string :=
  [ "AMR"; "AMR_WB"; "MP3"; "OGG_OPUS"; "LINEAR16"; "ENCODING_UNSPECIFIED" ].

End Audio.

(* ===================================================================== *)
(** ** More concrete values                                              *)
(* ===================================================================== *)

Module Demo2.
#[local] Existing Instance demoApi.

(** A new customer goes through the checkout up to the creation of the
    customer, up to the placing of the order, and to the completed order. *)
Definition untilCreating : list Machine.Received :=
  [ Machine.Ev Machine.START;
    Machine.Ev (Machine.ADD_TO_CART Demo.latte 2);
    Machine.Ev Machine.CHECKOUT;
    Machine.Ev (Machine.PROVIDE_NAME "Ana" "Lopez");
    Machine.Ev (Machine.PROVIDE_EMAIL "ana@x.com") ].

Definition untilPlacing : list Machine.Received :=
  untilCreating ++
  [ Machine.done_createCustomer "Ana"; Machine.Ev Machine.CONFIRM_ORDER ].

Definition untilCompleted : list Machine.Received :=
  untilPlacing ++ [ Machine.done_placeOrder 1001 ].

Definition start : Machine.Snapshot := Machine.initialSnapshot "15550001".

(** A context with a stored error. *)
Definition failedOnce : Machine.ConversationContext :=
  Machine.assign_error (Some "Failed to create order: Unknown error")
                       Demo.knownCustomer.

(** Collaborators that do not know the sender. *)
Definition envUnknownSender : Router.Collaborators :=
  Router.mkCollaborators (inl Demo.catalog) (inl ["Coffee"])
    (fun _ => None) (fun _ _ => []).

(** The worlds of a customer reviewing an empty cart, confirming an order,
    and giving the email. *)
Definition reviewingEmptyCart : Router.World :=
  Router.mkWorld (Machine.reviewingCart, Machine.initialContext "15550001") [] [].

Definition confirming : Router.World :=
  Router.mkWorld (Machine.checkout Machine.confirmingOrder, Demo.knownCustomer) [] [].

Definition givingEmail : Router.World :=
  Router.mkWorld
    (Machine.checkout Machine.collectingEmail, Machine.initialContext "15550001")
    [] [].

(** Stand-ins for the collaborators of the dispatcher. *)
Definition detectIntent (_ : string) : Handlers.Intent :=
  Handlers.mkIntent (Some "unknown") None.

Definition generateResponse (_ : Handlers.Intent) : string :=
  "Could you say that again?".

Definition sendSynthesizedSpeech (uid text : string) : Router.Task unit :=
  Router.reply (Router.Text uid text).

Definition noHandler (_ _ : string) (_ : Handlers.Intent) : Router.Task unit :=
  fun w => (inl tt, w).

Definition dispatch : Router.Collaborators -> string -> string -> Router.Task unit :=
  Handlers.processMessageWithStateMachine detectIntent generateResponse
    sendSynthesizedSpeech noHandler noHandler noHandler noHandler.

(** A session last used at time 0, stored under its key. *)
Definition store : gmap string Manager.ConversationState :=
  {[ "15550001" := Demo.oldSession ]}.

End Demo2.

(* ===================================================================== *)
(** * Properties of the conversation machine                             *)
(* ===================================================================== *)

Section MachineFacts.
Context `{api : ApiTypes}.
Import Machine.

(** Eventless transitions end after one step: the targets of
    [checkingCustomer] have none. *)
Lemma always_target_stable (snap snap' : Snapshot) :
  always snap = Some snap' -> always snap' = None.
Proof.
  destruct snap as [s c]. unfold always. simpl.
  destruct s as [| | | | |sub|]; try discriminate.
  destruct sub; try discriminate.
  destruct (customer c); intros [= <-]; reflexivity.
Qed.

Lemma settle_unfold (snap : Snapshot) :
  settle macrostepFuel snap =
    match always snap with Some snap' => snap' | None => snap end.
Proof.
  unfold macrostepFuel. simpl.
  destruct (always snap) as [snap'|] eqn:E; [|reflexivity].
  rewrite (always_target_stable _ _ E). reflexivity.
Qed.

Lemma settlePath_unfold (snap : Snapshot) :
  settlePath macrostepFuel snap =
    match always snap with Some snap' => [snap'] | None => [] end.
Proof.
  unfold macrostepFuel. simpl.
  destruct (always snap) as [snap'|] eqn:E; [|reflexivity].
  rewrite (always_target_stable _ _ E). reflexivity.
Qed.

(** [send] always delivers a snapshot in which no eventless transition is
    enabled: the fuel of the macrostep is never exhausted. *)
Lemma settle_stable (snap : Snapshot) :
  always (settle macrostepFuel snap) = None.
Proof.
  rewrite settle_unfold.
  destruct (always snap) as [snap'|] eqn:E; [|exact E].
  exact (always_target_stable _ _ E).
Qed.

(** [send] ends in the last snapshot of [sendPath]. *)
Lemma send_last (snap : Snapshot) (r : Received) :
  List.last (sendPath snap r) snap = send snap r.
Proof.
  unfold sendPath, send. rewrite settlePath_unfold, settle_unfold.
  destruct (always (transition snap r)); reflexivity.
Qed.

(** When the transition's target is not [checkingCustomer], the macrostep
    is the microstep. *)
Lemma send_transition (snap : Snapshot) (r : Received) :
  (transition snap r).1 <> checkout checkingCustomer ->
  send snap r = transition snap r.
Proof.
  intros H. unfold send. rewrite settle_unfold.
  destruct (transition snap r) as [s c]. unfold always. simpl in *.
  destruct s as [| | | | |sub|]; try reflexivity.
  destruct sub; try reflexivity. congruence.
Qed.

(** C2. In [checkout.placingOrder], when the create-order call of the
    backend returns an order, the actor goes to [orderCompleted], the cart is
    emptied and [pendingOrder] is the order returned; the other context
    fields are kept. *)
Theorem placingOrder_onDone (c : ConversationContext) (o : Order) :
  send (checkout placingOrder, c) (Router.placeOrderSettled (inl o))
  = (orderCompleted,
     mkContext (userId c) [] (customer c) (Some o)
               (selectedCategory c) (customerInfo c) (error c)).
Proof. reflexivity. Qed.

(** C3. In [checkout.placingOrder], when the create-order call of the
    backend fails, the actor goes back to [checkout.confirmingOrder], [error]
    holds the failure message, and the cart (with every other field) is as it
    was before. *)
Theorem placingOrder_onError (c : ConversationContext) (msg : string) :
  let snap' := send (checkout placingOrder, c) (Router.placeOrderSettled (inr msg)) in
  snap'.1 = checkout confirmingOrder
  /\ error snap'.2 = Some msg
  /\ cart snap'.2 = cart c
  /\ snap'.2 = assign_error (Some msg) c.
Proof. repeat split. Qed.

(** C4. [CHECKOUT] in [reviewingCart]: the machine stays in [reviewingCart]
    exactly when the cart is empty (and then nothing changes at all); with a
    cart that is not empty it enters [checkout]. *)
Theorem reviewingCart_CHECKOUT (c : ConversationContext) :
  let snap' := send (reviewingCart, c) (Ev CHECKOUT) in
  (snap'.1 = reviewingCart <-> cart c = [])
  /\ (cart c = [] -> snap' = (reviewingCart, c))
  /\ (cart c <> [] -> exists sub, snap' = (checkout sub, c)).
Proof.
  unfold send. rewrite settle_unfold. unfold transition, always. simpl.
  destruct (cart c) as [|item rest] eqn:E; simpl.
  - split; [split; reflexivity|]. split; [reflexivity | congruence].
  - destruct (customer c) eqn:Ec; simpl.
    + split; [split; discriminate|]. split; [discriminate|].
      intros _. eexists. reflexivity.
    + split; [split; discriminate|]. split; [discriminate|].
      intros _. eexists. reflexivity.
Qed.

(** C5. [RESET] in any snapshot (hence in every reachable one) leads to
    [idle] with an empty cart, no customer, no pending order, no selected
    category, an empty [customerInfo] and no error; [userId] is kept. *)
Theorem RESET_from_any_state (snap : Snapshot) :
  send snap (Ev RESET)
  = (idle,
     mkContext (userId snap.2) [] None None None
               (mkCustomerInfo None None None) None).
Proof.
  destruct snap as [s c].
  destruct s as [| | | | |sub|]; try reflexivity.
  destruct sub; reflexivity.
Qed.

(** The transitions that enter the compound [checkout] state are the
    [CHECKOUT] of [selectingProducts] and the guarded [CHECKOUT] of
    [reviewingCart]; neither has an action. *)
Lemma enters_checkout_inv (snap : Snapshot) (r : Received) :
  snap.1 <> checkout checkingCustomer ->
  (transition snap r).1 = checkout checkingCustomer ->
  r = Ev CHECKOUT
  /\ (snap.1 = selectingProducts \/ (snap.1 = reviewingCart /\ cart snap.2 <> []))
  /\ transition snap r = (checkout checkingCustomer, snap.2).
Proof.
  destruct snap as [s c]. unfold transition. simpl. intros Hs.
  destruct s as [| | | | |sub|]; [ | | | | |destruct sub|];
    destruct r as [e| | | | |]; try destruct e; simpl;
    try discriminate; try congruence.
  - intros _. repeat split. left. reflexivity.
  - destruct (cart c) as [|i l]; simpl; [discriminate|].
    intros _. repeat split. right. split; [reflexivity | discriminate].
Qed.

(** C7. On an entry into [checkout], the eventless transition of
    [checkingCustomer] is taken at once: with [context.customer] set the
    actor passes through [checkingCustomer] and stops in
    [checkout.confirmingOrder], never passing through [collectingName] or
    [collectingEmail]; with [context.customer] unset it stops in
    [checkout.collectingName].  The context is not changed. *)
Theorem checkingCustomer_fast_path (snap : Snapshot) (r : Received) :
  snap.1 <> checkout checkingCustomer ->
  (transition snap r).1 = checkout checkingCustomer ->
  (send snap r).2 = snap.2
  /\ match customer snap.2 with
     | Some _ =>
         List.map fst (sendPath snap r)
           = [checkout checkingCustomer; checkout confirmingOrder]
         /\ (send snap r).1 = checkout confirmingOrder
         /\ ~ In (checkout collectingName) (List.map fst (sendPath snap r))
         /\ ~ In (checkout collectingEmail) (List.map fst (sendPath snap r))
     | None =>
         List.map fst (sendPath snap r)
           = [checkout checkingCustomer; checkout collectingName]
         /\ (send snap r).1 = checkout collectingName
     end.
Proof.
  intros Hs Ht.
  destruct (enters_checkout_inv snap r Hs Ht) as (_ & _ & Htr).
  unfold sendPath, send. rewrite settlePath_unfold, settle_unfold, Htr.
  unfold always. simpl.
  destruct (customer snap.2); simpl.
  - repeat split; intros [H|[H|[]]]; discriminate.
  - repeat split.
Qed.

(** [CUSTOMER_FOUND] is not a declared event type, no state node has a
    transition for it, and the actor, which is at rest whenever it is sent
    something, is in the same snapshot afterwards. *)
Lemma CUSTOMER_FOUND_unhandled (snap : Snapshot) (found : Customer) :
  ~ In (eventType (CUSTOMER_FOUND found)) declaredEventTypes
  /\ onNode snap.1 snap.2 (CUSTOMER_FOUND found) = None
  /\ onRoot snap.1 snap.2 (CUSTOMER_FOUND found) = None
  /\ transition snap (CUSTOMER_FOUND found) = snap
  /\ (always snap = None -> send snap (CUSTOMER_FOUND found) = snap).
Proof.
  destruct snap as [s c]. simpl.
  split.
  { intros H. repeat (destruct H as [H|H]; [discriminate|]). exact H. }
  assert (Hn : onNode s c (CUSTOMER_FOUND found) = None).
  { destruct s as [| | | | |sub|]; try reflexivity. destruct sub; reflexivity. }
  assert (Ht : transition (s, c) (CUSTOMER_FOUND found) = (s, c)).
  { unfold transition. simpl. rewrite Hn. reflexivity. }
  split; [exact Hn|]. split; [reflexivity|]. split; [exact Ht|].
  intros Hrest. unfold send. rewrite settle_unfold, Ht, Hrest. reflexivity.
Qed.

(** Every snapshot an actor can be observed in is at rest. *)
Lemma reachable_at_rest (uid : string) (snap : Snapshot) :
  reachable uid snap -> always snap = None.
Proof.
  intros H. destruct H; [reflexivity | apply settle_stable].
Qed.

(** *** Cart lines *)

Lemma find_sameProduct_None (p : Product) (l : list CartItem) :
  List.find (sameProduct p) l = None -> ~ In (product_id p) (lineIds l).
Proof.
  induction l as [|item rest IH]; simpl; [tauto|].
  unfold sameProduct at 1.
  destruct (Z.eqb_spec (product_id (product item)) (product_id p)) as [E|E];
    [discriminate|].
  intros H [H1|H1]; [congruence | exact (IH H H1)].
Qed.

Lemma find_sameProduct_Some (p : Product) (l : list CartItem) (item : CartItem) :
  List.find (sameProduct p) l = Some item -> In (product_id p) (lineIds l).
Proof.
  induction l as [|x rest IH]; simpl; [discriminate|].
  unfold sameProduct at 1.
  destruct (Z.eqb_spec (product_id (product x)) (product_id p)) as [E|E].
  - intros _. left. exact E.
  - intros H. right. exact (IH H).
Qed.

(** The [map] of the merge keeps every line's product. *)
Lemma lineIds_bump (p : Product) (q : Z) (l : list CartItem) :
  lineIds (List.map (fun item =>
                       if sameProduct p item
                       then mkCartItem _ (product item) (quantity item + q)
                       else item) l)
  = lineIds l.
Proof.
  induction l as [|item rest IH]; simpl; [reflexivity|].
  rewrite IH. destruct (sameProduct p item); reflexivity.
Qed.

Lemma quantityOf_app (pid : Z) (l1 l2 : list CartItem) :
  quantityOf pid (l1 ++ l2) = quantityOf pid l1 + quantityOf pid l2.
Proof.
  induction l1 as [|item rest IH]; simpl; [reflexivity|]. rewrite IH. lia.
Qed.

Lemma quantityOf_bump_absent (p : Product) (q pid : Z) (l : list CartItem) :
  ~ In (product_id p) (lineIds l) ->
  quantityOf pid (List.map (fun item =>
                              if sameProduct p item
                              then mkCartItem _ (product item) (quantity item + q)
                              else item) l)
  = quantityOf pid l.
Proof.
  induction l as [|item rest IH]; simpl; [reflexivity|].
  intros H. rewrite IH by tauto.
  destruct (sameProduct p item) eqn:E; [|reflexivity].
  unfold sameProduct in E. apply Z.eqb_eq in E. tauto.
Qed.

Lemma quantityOf_bump_present (p : Product) (q pid : Z) (l : list CartItem) :
  NoDup (lineIds l) ->
  In (product_id p) (lineIds l) ->
  quantityOf pid (List.map (fun item =>
                              if sameProduct p item
                              then mkCartItem _ (product item) (quantity item + q)
                              else item) l)
  = quantityOf pid l + (if product_id p =? pid then q else 0).
Proof.
  induction l as [|item rest IH]; simpl; [tauto|].
  intros Hnd Hin. inversion Hnd as [|x xs Hx Hrest]; subst.
  rewrite list_elem_of_In in Hx.
  destruct (sameProduct p item) eqn:E; unfold sameProduct in E.
  - apply Z.eqb_eq in E.
    rewrite quantityOf_bump_absent by (rewrite <- E; exact Hx).
    simpl. rewrite E. destruct (product_id p =? pid); lia.
  - apply Z.eqb_neq in E.
    destruct Hin as [Hin|Hin]; [congruence|].
    rewrite (IH Hrest Hin). lia.
Qed.

(** On a cart without duplicate products, the merge of [selectingProducts]
    keeps the cart without duplicates and adds the quantity to the product's
    total. *)
Lemma mergeLine_unique (p : Product) (q : Z) (c : ConversationContext) :
  uniqueProducts (cart c) -> uniqueProducts (mergeLine p q c).
Proof.
  unfold uniqueProducts, mergeLine. intros Hnd.
  destruct (List.find (sameProduct p) (cart c)) as [item|] eqn:E.
  - rewrite lineIds_bump. exact Hnd.
  - unfold lineIds. rewrite List.map_app. simpl.
    apply NoDup_app. split; [exact Hnd|]. split.
    + intros x Hx Hx'. apply list_elem_of_In in Hx, Hx'.
      destruct Hx' as [<-|[]]. exact (find_sameProduct_None _ _ E Hx).
    + apply NoDup_singleton.
Qed.

Lemma mergeLine_quantity (p : Product) (q pid : Z) (c : ConversationContext) :
  uniqueProducts (cart c) ->
  quantityOf pid (mergeLine p q c)
  = quantityOf pid (cart c) + (if product_id p =? pid then q else 0).
Proof.
  unfold uniqueProducts, mergeLine. intros Hnd.
  destruct (List.find (sameProduct p) (cart c)) as [item|] eqn:E.
  - apply quantityOf_bump_present; [exact Hnd|].
    exact (find_sameProduct_Some _ _ _ E).
  - rewrite quantityOf_app. simpl. lia.
Qed.

(** While the actor stays in [selectingProducts], any sequence of
    [ADD_TO_CART] events keeps one line per product, and the quantity of each
    product grows by the sum of the quantities requested for it. *)
Lemma selectingProducts_adds_merge (rs : list Received) (c : ConversationContext) :
  Forall isAddToCart rs ->
  uniqueProducts (cart c) ->
  (run (selectingProducts, c) rs).1 = selectingProducts
  /\ uniqueProducts (cart (run (selectingProducts, c) rs).2)
  /\ forall pid,
       quantityOf pid (cart (run (selectingProducts, c) rs).2)
       = quantityOf pid (cart c) + requestedOf pid rs.
Proof.
  intros Hall. revert c.
  induction Hall as [|r rest Hr Hrest IH]; intros c Hu.
  - simpl. repeat split; [exact Hu | intros; lia].
  - destruct r as [e| | | | |]; try destruct e; try contradiction.
    change (run (selectingProducts, c) (Ev (ADD_TO_CART p qty) :: rest))
      with (run (selectingProducts, assign_cart (mergeLine p qty) c) rest).
    destruct (IH (assign_cart (mergeLine p qty) c)) as (H1 & H2 & H3).
    { simpl. apply mergeLine_unique, Hu. }
    split; [exact H1|]. split; [exact H2|].
    intros pid. rewrite H3. simpl cart.
    rewrite mergeLine_quantity by exact Hu. simpl. lia.
Qed.

End MachineFacts.

(* ===================================================================== *)
(** * Properties of the session store                                    *)
(* ===================================================================== *)

Section ManagerFacts.
Context `{api : ApiTypes}.
Import Manager.

(** C6. [getConversation] hands out the stored session (with its
    [lastActivity] refreshed) exactly when one is stored and its idle time
    [now - lastActivity] is below 30 minutes (1800000 ms); in every other
    case, a missing entry included, the entry is replaced by a new session in
    step [IDLE] with an empty cart and no customer.  The session handed out is
    the one the map holds afterwards. *)
Theorem getConversation_idle_timeout
    (conversations : gmap string ConversationState) (uid : string) (now stamp : Z) :
  let result := getConversation conversations uid now stamp in
  result.2 = <[uid := result.1]> conversations
  /\ match conversations !! uid with
     | Some existing =>
         if decide (now - lastActivity existing < 1800000)
         then result.1 = setLastActivity stamp existing
              /\ currentStep result.1 = currentStep existing
              /\ cart result.1 = cart existing
              /\ customer result.1 = customer existing
         else result.1 = newConversation uid stamp
     | None => result.1 = newConversation uid stamp
     end
  /\ (result.1 = newConversation uid stamp ->
      currentStep result.1 = IDLE /\ cart result.1 = [] /\ customer result.1 = None
      /\ pendingOrder result.1 = None /\ userId result.1 = uid).
Proof.
  unfold getConversation, isSessionValid, SESSION_TIMEOUT.
  change (30 * 60 * 1000) with 1800000.
  destruct (conversations !! uid) as [existing|] eqn:E; simpl.
  - destruct (Z.ltb_spec (now - lastActivity existing) 1800000) as [H|H];
      destruct (decide (now - lastActivity existing < 1800000)) as [D|D];
      try lia; simpl.
    + split; [reflexivity|]. split; [repeat split|].
      intros Hnew. unfold setLastActivity, newConversation in Hnew.
      injection Hnew; intros. repeat split; congruence.
    + repeat split.
  - repeat split.
Qed.

End ManagerFacts.

(* ===================================================================== *)
(** * Properties of the dialogue router                                  *)
(* ===================================================================== *)

Section RouterFacts.
Context `{api : ApiTypes}.
Import Router.

Lemma eventsSent_app (t : Task unit) (w : World) (evs : list Machine.Received) :
  sent (t w).2 = sent w ++ evs -> eventsSent t w = evs.
Proof.
  unfold eventsSent. intros ->. apply drop_app_length.
Qed.

(** The loop of [processNaturalOrderRequest] never throws; it sends the
    events of [addEvents] in order and makes no request to the messaging
    service. *)
Lemma forOf_addEvents (products : list Product) (items : list OrderItem) (w : World) :
  forOf items (fun item =>
    match findByName products item with
    | Some product =>
        actorSend (Machine.Ev (Machine.ADD_TO_CART product (itemQuantity item)))
    | None => mret tt
    end) w
  = (inl tt,
     mkWorld (Machine.run (actor w) (addEvents products items))
             (sent w ++ addEvents products items)
             (outbox w)).
Proof.
  revert w. induction items as [|item rest IH]; intros w.
  - simpl. rewrite List.app_nil_r. destruct w; reflexivity.
  - simpl forOf. unfold mbind, task_bind.
    unfold addEvents. simpl List.flat_map. fold (addEvents products rest).
    destruct (findByName products item) as [product|].
    + unfold actorSend at 1. rewrite IH. simpl.
      rewrite <- List.app_assoc. reflexivity.
    + unfold mret, task_ret. rewrite IH. reflexivity.
Qed.

(** [showCart] sends nothing to the actor. *)
Lemma showCart_sent (env : Collaborators) (uid : string) (w : World) :
  sent (showCart env uid w).2 = sent w /\ actor (showCart env uid w).2 = actor w.
Proof.
  unfold showCart, showCategories, getSnapshot, tryCatch, await, reply,
    mbind, task_bind.
  destruct (Z.of_nat (List.length (Machine.cart (actor w).2)) =? 0); simpl;
    [|split; reflexivity].
  destruct (getCategories env) as [cats|e]; simpl; [|split; reflexivity].
  destruct (Z.of_nat (List.length cats) =? 0); split; reflexivity.
Qed.

(** What [processNaturalOrderRequest] sends once the catalog is fetched. *)
Lemma processNaturalOrderRequest_sent (env : Collaborators) (uid message : string)
    (w : World) (products : list Product) :
  getProducts env = inl products ->
  let w' := (processNaturalOrderRequest env uid message w).2 in
  let evs := addEvents products (parseOrderFromMessage env message products) in
  sent w' = sent w ++ evs /\ actor w' = Machine.run (actor w) evs.
Proof.
  intros Hp. unfold processNaturalOrderRequest, tryCatch, await.
  rewrite Hp. unfold mbind, task_bind. cbv beta iota.
  destruct (parseOrderFromMessage env message products) as [|item rest] eqn:E.
  - simpl. rewrite List.app_nil_r. split; reflexivity.
  - change (Z.of_nat (List.length (item :: rest)) =? 0) with false.
    cbv beta iota. rewrite forOf_addEvents.
    set (w1 := mkWorld _ _ _).
    destruct (showCart_sent env uid w1) as [Hs Ha].
    destruct (showCart env uid w1) as [[[]|e] w2]; simpl in *;
      rewrite Hs, Ha; split; reflexivity.
Qed.

Lemma findByName_Some (products : list Product) (item : OrderItem) (p : Product) :
  findByName products item = Some p ->
  In p products /\ product_name p = productName item.
Proof.
  unfold findByName. intros H. apply List.find_some in H.
  destruct H as [Hin Heq]. split; [exact Hin|].
  apply String.eqb_eq. exact Heq.
Qed.

Lemma findByName_None (products : list Product) (item : OrderItem) :
  findByName products item = None -> ~ matchesCatalog products item.
Proof.
  unfold findByName, matchesCatalog. intros H Hex.
  apply List.Exists_exists in Hex. destruct Hex as (p & Hin & Heq).
  pose proof (List.find_none _ _ H p Hin) as Hne. simpl in Hne.
  apply String.eqb_neq in Hne. contradiction.
Qed.

(** The events of the loop answer, one for one and in order, the parsed
    pairs whose name is the name of a catalog product. *)
Lemma addEvents_answers (products : list Product) (items : list OrderItem) :
  Forall2 (answers products) (matched products items) (addEvents products items).
Proof.
  unfold matched. induction items as [|item rest IH]; [constructor|].
  unfold addEvents. simpl List.flat_map. fold (addEvents products rest).
  rewrite filter_cons.
  destruct (findByName products item) as [p|] eqn:E.
  - destruct (findByName_Some _ _ _ E) as [Hin Heq].
    destruct (decide (matchesCatalog products item)) as [D|D].
    + simpl. constructor; [|exact IH]. exists p. repeat split; assumption.
    + exfalso. apply D. apply List.Exists_exists. exists p. split; assumption.
  - pose proof (findByName_None _ _ E) as Hno.
    destruct (decide (matchesCatalog products item)) as [D|D]; [contradiction|].
    simpl. exact IH.
Qed.

(** C9. Once the catalog is fetched, [processNaturalOrderRequest] sends,
    in order, one [ADD_TO_CART] with the parsed quantity for each parsed pair
    whose name is exactly the name of a catalog product, and nothing for the
    other pairs: the events sent answer one for one the matched pairs, the
    actor has received exactly these events, and when no pair matches no event
    is sent. *)
Theorem natural_order_adds_matched_pairs (env : Collaborators)
    (uid message : string) (w : World) (products : list Product) :
  getProducts env = inl products ->
  let items := parseOrderFromMessage env message products in
  let evs := eventsSent (processNaturalOrderRequest env uid message) w in
  Forall2 (answers products) (matched products items) evs
  /\ actor (processNaturalOrderRequest env uid message w).2
     = Machine.run (actor w) evs
  /\ (Forall (fun item => ~ matchesCatalog products item) items -> evs = []).
Proof.
  intros Hp items evs.
  destruct (processNaturalOrderRequest_sent env uid message w products Hp)
    as [Hs Ha].
  assert (Hevs : evs = addEvents products items).
  { apply eventsSent_app. exact Hs. }
  rewrite Hevs. split; [apply addEvents_answers|]. split; [exact Ha|].
  intros Hnone.
  pose proof (addEvents_answers products items) as HF.
  assert (Hm : matched products items = []).
  { unfold matched. clear -Hnone.
    induction Hnone as [|item rest Hi Hrest IH]; [reflexivity|].
    rewrite filter_cons. destruct (decide (matchesCatalog products item));
      [contradiction | exact IH]. }
  rewrite Hm in HF. inversion HF. reflexivity.
Qed.

(** C10. In [handleCollectingEmailState], an input whose trimmed form lacks
    an [@] or a [.] sends no event, leaves the actor as it was and asks for
    a valid address; otherwise exactly one [PROVIDE_EMAIL] with the trimmed
    input is sent.  So a [PROVIDE_EMAIL] is sent only for an input that
    passes the check. *)
Theorem collectingEmail_validation (uid input : string) (w : World) :
  let email := Js.trim input in
  let valid := Js.includes email "@" && Js.includes email "." in
  let w' := (handleCollectingEmailState uid input w).2 in
  let evs := eventsSent (handleCollectingEmailState uid input) w in
  (valid = false ->
     evs = [] /\ actor w' = actor w
     /\ outbox w' = outbox w ++ [Text uid "Please provide a valid email address."])
  /\ (valid = true ->
        evs = [Machine.Ev (Machine.PROVIDE_EMAIL email)]
        /\ actor w' = Machine.send (actor w) (Machine.Ev (Machine.PROVIDE_EMAIL email)))
  /\ ((exists m, In (Machine.Ev (Machine.PROVIDE_EMAIL m)) evs) <-> valid = true).
Proof.
  intros email valid w' evs.
  assert (Hcase :
    (valid = false /\ evs = [] /\ actor w' = actor w
     /\ outbox w' = outbox w ++ [Text uid "Please provide a valid email address."])
    \/ (valid = true /\ evs = [Machine.Ev (Machine.PROVIDE_EMAIL email)]
        /\ actor w' = Machine.send (actor w) (Machine.Ev (Machine.PROVIDE_EMAIL email)))).
  { subst evs w' valid. unfold handleCollectingEmailState. fold email.
    destruct (Js.includes email "@"), (Js.includes email "."); cbv beta iota delta [negb orb andb].
    - right. split; [reflexivity|]. split; [|reflexivity].
      apply eventsSent_app. reflexivity.
    - left. split; [reflexivity|]. split; [|split; reflexivity].
      apply eventsSent_app. simpl. rewrite List.app_nil_r. reflexivity.
    - left. split; [reflexivity|]. split; [|split; reflexivity].
      apply eventsSent_app. simpl. rewrite List.app_nil_r. reflexivity.
    - left. split; [reflexivity|]. split; [|split; reflexivity].
      apply eventsSent_app. simpl. rewrite List.app_nil_r. reflexivity. }
  destruct Hcase as [(Hv & He & Ha & Ho)|(Hv & He & Ha)]; rewrite Hv, He.
  - split; [intros _; repeat split; assumption|].
    split; [discriminate|].
    split; [intros [m []] | discriminate].
  - split; [discriminate|].
    split; [intros _; split; [reflexivity | exact Ha]|].
    split; [reflexivity|]. intros _. exists email. left. reflexivity.
Qed.

(** C8. When the phone lookup finds a customer, [handleCheckoutState] sends
    [CUSTOMER_FOUND] and nothing else to the actor.  That event type is not
    declared, no state node has a transition for it, and the actor's state
    and context (its [customer] included) are the same before and after: the
    customer found is not stored in the context. *)
Theorem CUSTOMER_FOUND_not_installed (env : Collaborators) (uid : string)
    (w : World) (found : Customer) :
  getCustomerByPhone env uid = Some found ->
  Machine.always (actor w) = None ->
  let w' := (handleCheckoutState env uid w).2 in
  eventsSent (handleCheckoutState env uid) w = [Machine.CUSTOMER_FOUND found]
  /\ ~ In (Machine.eventType (Machine.CUSTOMER_FOUND found)) Machine.declaredEventTypes
  /\ (forall snap : Machine.Snapshot,
        Machine.onNode snap.1 snap.2 (Machine.CUSTOMER_FOUND found) = None
        /\ Machine.onRoot snap.1 snap.2 (Machine.CUSTOMER_FOUND found) = None
        /\ Machine.transition snap (Machine.CUSTOMER_FOUND found) = snap
        /\ (Machine.always snap = None ->
            Machine.send snap (Machine.CUSTOMER_FOUND found) = snap))
  /\ actor w' = actor w
  /\ Machine.customer (actor w').2 = Machine.customer (actor w).2.
Proof.
  intros Hfound Hrest w'.
  destruct (CUSTOMER_FOUND_unhandled (actor w) found) as (Hd & _ & _ & _ & Hsend).
  assert (Ha : actor w' = actor w).
  { subst w'. unfold handleCheckoutState. rewrite Hfound.
    unfold confirmOrder, actorSend, getSnapshot, reply, mbind, task_bind.
    simpl. exact (Hsend Hrest). }
  split.
  { apply eventsSent_app. unfold handleCheckoutState. rewrite Hfound.
    reflexivity. }
  split; [exact Hd|].
  split.
  { intros snap.
    destruct (CUSTOMER_FOUND_unhandled snap found) as (_ & H1 & H2 & H3 & H4).
    repeat split; assumption. }
  split; [exact Ha | rewrite Ha; reflexivity].
Qed.

End RouterFacts.

(* ===================================================================== *)
(** * Concrete runs                                                      *)
(* ===================================================================== *)

Section Runs.
#[local] Existing Instance demoApi.
Import Machine.

(** C1 (where the code departs from it).  The [ADD_TO_CART] of [greeting]
    appends a line without looking for the product: after the run
    [Demo.repeatedOrder], which asks for product 42 twice (2 and 3), the
    cart has two lines for product 42, of quantities 2 and 3, instead of one
    line of quantity 5. *)
Theorem greeting_add_duplicates_line :
  let snap := run (initialSnapshot "15550001") Demo.repeatedOrder in
  snap.1 = selectingProducts
  /\ cart snap.2 = [mkCartItem _ Demo.latte 2; mkCartItem _ Demo.latte 3]
  /\ lineIds (cart snap.2) = [42; 42]
  /\ ~ uniqueProducts (cart snap.2)
  /\ requestedOf 42 Demo.repeatedOrder = 5.
Proof.
  simpl. repeat split.
  intros H. inversion H as [|x l Hx Hl]; subst.
  apply Hx. left.
Qed.

(** The [ADD_TO_CART] of [reviewingCart] appends in the same way. *)
Example reviewingCart_add_duplicates_line :
  lineIds (cart (run (initialSnapshot "15550001") Demo.addWhileReviewing).2)
  = [42; 42].
Proof. reflexivity. Qed.

(** The same two requests made while the actor stays in
    [selectingProducts] give one line of quantity 5. *)
Example selectingProducts_merges_line :
  cart (run (selectingProducts, initialContext "15550001")
            [Ev (ADD_TO_CART Demo.latte 2); Ev (ADD_TO_CART Demo.latte 3)]).2
  = [mkCartItem _ Demo.latte 5].
Proof. reflexivity. Qed.

Lemma checkingCustomer_fast_path_witness :
  (selectingProducts, Demo.knownCustomer).1 <> checkout checkingCustomer
  /\ (transition (selectingProducts, Demo.knownCustomer) (Ev CHECKOUT)).1
     = checkout checkingCustomer
  /\ (send (selectingProducts, Demo.knownCustomer) (Ev CHECKOUT)).1
     = checkout confirmingOrder.
Proof.
  assert (H1 : (selectingProducts, Demo.knownCustomer).1 <> checkout checkingCustomer)
    by discriminate.
  assert (H2 : (transition (selectingProducts, Demo.knownCustomer) (Ev CHECKOUT)).1
               = checkout checkingCustomer) by reflexivity.
  split; [exact H1|]. split; [exact H2|].
  pose proof (checkingCustomer_fast_path
                (selectingProducts, Demo.knownCustomer) (Ev CHECKOUT) H1 H2) as H.
  simpl in H. destruct H as (_ & _ & H & _). exact H.
Defined.

End Runs.

Section RouterRuns.
#[local] Existing Instance demoApi.
Import Router.

(** The natural-order path on the demo catalog: the latte and the mocha are
    added, the pair named ["latte"] (no catalog product has that exact name)
    is skipped. *)
Example natural_order_run :
  eventsSent (processNaturalOrderRequest Demo.env "15550001" "two lattes, a latte and three mochas")
             Demo.greetingWorld
  = [ Machine.Ev (Machine.ADD_TO_CART Demo.latte 2);
      Machine.Ev (Machine.ADD_TO_CART Demo.mocha 3) ].
Proof. reflexivity. Qed.

Lemma natural_order_adds_matched_pairs_witness :
  getProducts Demo.env = inl Demo.catalog
  /\ Forall2 (answers Demo.catalog)
       (matched Demo.catalog (parseOrderFromMessage Demo.env "order" Demo.catalog))
       (eventsSent (processNaturalOrderRequest Demo.env "15550001" "order")
                   Demo.greetingWorld).
Proof.
  assert (H : getProducts Demo.env = inl Demo.catalog) by reflexivity.
  split; [exact H|].
  exact (proj1 (natural_order_adds_matched_pairs
                  Demo.env "15550001" "order" Demo.greetingWorld Demo.catalog H)).
Defined.

Lemma CUSTOMER_FOUND_not_installed_witness :
  getCustomerByPhone Demo.env "15550001" = Some "Ana"
  /\ Machine.always (actor Demo.collectingNameWorld) = None
  /\ actor (handleCheckoutState Demo.env "15550001" Demo.collectingNameWorld).2
     = (Machine.checkout Machine.collectingName, Machine.initialContext "15550001").
Proof.
  assert (H1 : getCustomerByPhone Demo.env "15550001" = Some "Ana") by reflexivity.
  assert (H2 : Machine.always (actor Demo.collectingNameWorld) = None) by reflexivity.
  split; [exact H1|]. split; [exact H2|].
  exact (proj1 (proj2 (proj2 (proj2
    (CUSTOMER_FOUND_not_installed Demo.env "15550001" Demo.collectingNameWorld
                                  "Ana" H1 H2))))).
Defined.

(** The email check on three inputs. *)
Example trim_example : Js.trim "  ana@x.com " = "ana@x.com".
Proof. reflexivity. Qed.

Example malformed_email_run :
  let w := Router.mkWorld
             (Machine.checkout Machine.collectingEmail,
              Machine.initialContext "15550001") [] [] in
  handleCollectingEmailState "15550001" " ana.x.com" w
  = (inl tt,
     Router.mkWorld (actor w) []
       [Text "15550001" "Please provide a valid email address."]).
Proof. reflexivity. Qed.

Example valid_email_run :
  let w := Router.mkWorld
             (Machine.checkout Machine.collectingEmail,
              Machine.initialContext "15550001") [] [] in
  (handleCollectingEmailState "15550001" " ana@x.com " w).2
  = Router.mkWorld
      (Machine.checkout Machine.creatingCustomer,
       Machine.assign_customerInfo
         (fun i => Machine.mkCustomerInfo (Machine.firstName i) (Machine.lastName i)
                                          (Some "ana@x.com"))
         (Machine.initialContext "15550001"))
      [Machine.Ev (Machine.PROVIDE_EMAIL "ana@x.com")]
      [Text "15550001" "Creating your customer profile..."].
Proof. reflexivity. Qed.

(** A session idle for exactly 30 minutes is replaced, one idle for a
    millisecond less is handed out again. *)
Example session_at_timeout :
  (Manager.getConversation {[ "15550001" := Demo.oldSession ]} "15550001"
                           1800000 1800001).1
  = Manager.newConversation "15550001" 1800001.
Proof. reflexivity. Qed.

Example session_below_timeout :
  (Manager.getConversation {[ "15550001" := Demo.oldSession ]} "15550001"
                           1799999 1800000).1
  = Manager.setLastActivity 1800000 Demo.oldSession.
Proof. reflexivity. Qed.

End RouterRuns.

(* ===================================================================== *)
(** * Invariants and frame properties of the machine                     *)
(* ===================================================================== *)

Section MachineInvariants.
Context `{api : ApiTypes}.
Import Machine.

(** [send] written out: the microstep, then the one eventless step. *)
Lemma send_unfold (snap : Snapshot) (r : Received) :
  send snap r =
    match always (transition snap r) with
    | Some snap' => snap'
    | None => transition snap r
    end.
Proof. unfold send. apply settle_unfold. Qed.

(** Case analysis on the active state node and the received event. *)
Ltac by_cases s r :=
  destruct s as [| | | | |[| | | | |]|];
  destruct r as [[| | | | | | | | | | | | | |]| | | | |].

Ltac step_send c :=
  rewrite ?send_unfold; unfold transition, always; simpl;
  repeat match goal with
         | |- context [cart c] => destruct (cart c) eqn:?; simpl
         | |- context [customer c] => destruct (customer c) eqn:?; simpl
         end.

Lemma reachable_run (uid : string) (snap : Snapshot) (rs : list Received) :
  reachable uid snap -> reachable uid (run snap rs).
Proof.
  revert snap. induction rs as [|r rest IH]; intros snap H; [exact H|].
  simpl. apply IH. apply reachable_send. exact H.
Qed.

(** [send] keeps the conditions of [consistent]. *)
Lemma send_consistent (snap : Snapshot) (r : Received) :
  consistent snap -> consistent (send snap r).
Proof.
  destruct snap as [s c]. unfold consistent.
  by_cases s r; simpl; intros H; step_send c; simpl in *;
    repeat split; try tauto; try congruence; try discriminate.
Qed.

Lemma reachable_consistent (uid : string) (snap : Snapshot) :
  reachable uid snap -> consistent snap.
Proof.
  induction 1 as [|snap r _ IH]; [exact I | exact (send_consistent snap r IH)].
Qed.


(** X2. The [createCustomer] service is invoked with a complete [customerInfo]:
    whenever an actor is in [checkout.creatingCustomer], the first name, the
    last name and the email have been collected. *)
Theorem createCustomer_input_complete (uid : string) (snap : Snapshot) :
  reachable uid snap ->
  snap.1 = checkout creatingCustomer ->
  exists first last mail,
    customerInfo snap.2 = mkCustomerInfo (Some first) (Some last) (Some mail).
Proof.
  intros Hr Hs. pose proof (reachable_consistent uid snap Hr) as Hc.
  unfold consistent in Hc. rewrite Hs in Hc.
  destruct (customerInfo snap.2) as [[f|] [l|] [m|]]; simpl in Hc;
    try (exfalso; tauto).
  exists f, l, m. reflexivity.
Qed.


Lemma send_userId (snap : Snapshot) (r : Received) :
  userId (send snap r).2 = userId snap.2.
Proof.
  destruct snap as [s c]. by_cases s r; step_send c; reflexivity.
Qed.

(** X4. No event changes [userId]: after any run it is the one the actor was
    created with. *)
Theorem run_keeps_userId (snap : Snapshot) (rs : list Received) :
  userId (run snap rs).2 = userId snap.2.
Proof.
  revert snap. induction rs as [|r rest IH]; intros snap; [reflexivity|].
  simpl. rewrite IH. apply send_userId.
Qed.

(** The eventless step never changes the context. *)
Lemma send_context (snap : Snapshot) (r : Received) :
  (send snap r).2 = (transition snap r).2.
Proof.
  rewrite send_unfold. unfold always.
  destruct (transition snap r) as [s c]. simpl.
  destruct s as [| | | | |[| | | | |]|]; try reflexivity.
  destruct (customer c); reflexivity.
Qed.

(** X5. How an event can change the cart: not at all, by emptying it ([RESET],
    the [CLEAR_CART] of [reviewingCart], a placed order), or, on an
    [ADD_TO_CART], by appending a line or by the merge.  No event removes a
    single line. *)
Theorem cart_changes (snap : Snapshot) (r : Received) :
  cart (send snap r).2 = cart snap.2
  \/ (emptiesCart snap.1 r /\ cart (send snap r).2 = [])
  \/ (exists p q, r = Ev (ADD_TO_CART p q)
        /\ (cart (send snap r).2 = appendLine p q snap.2
            \/ cart (send snap r).2 = mergeLine p q snap.2)).
Proof.
  rewrite send_context. destruct snap as [s c]. unfold emptiesCart, transition.
  by_cases s r; simpl;
    repeat match goal with
           | |- context [if ?b then _ else _] => destruct b; simpl
           end;
    try (left; reflexivity);
    try (right; left; split; [tauto | reflexivity]);
    try (right; left; split; [|reflexivity]; right; right; split; eauto; fail);
    try (right; right; eexists _, _; split; [reflexivity|]; simpl; tauto).
Qed.

(** X6. A stored error stays until a [RESET]: no other event clears [error]. *)
Theorem error_kept_until_RESET (snap : Snapshot) (r : Received) (msg : string) :
  error snap.2 = Some msg ->
  r <> Ev RESET ->
  error (send snap r).2 <> None.
Proof.
  destruct snap as [s c]. simpl. intros He Hr.
  by_cases s r; step_send c; simpl; try congruence.
Qed.

(** X7. [CANCEL_ORDER] on an actor at rest: from the three steps of the
    checkout that wait for the customer it leads to [reviewingCart]; while a
    backend call is running, and outside the checkout, it is ignored.  In
    every case the context (the cart included) is as it was. *)
Theorem CANCEL_ORDER_keeps_context (snap : Snapshot) :
  always snap = None ->
  send snap (Ev CANCEL_ORDER)
  = match snap.1 with
    | checkout collectingName | checkout collectingEmail
    | checkout confirmingOrder => (reviewingCart, snap.2)
    | _ => snap
    end.
Proof.
  destruct snap as [s c]. intros Hrest.
  destruct s as [| | | | |[| | | | |]|]; try reflexivity.
  unfold always in Hrest. simpl in Hrest. destruct (customer c); discriminate.
Qed.

(** X8. The declared event [ORDER_PLACED] has no transition in any state: an
    actor at rest is in the same snapshot after it. *)
Theorem ORDER_PLACED_ignored (snap : Snapshot) (o : Order) :
  always snap = None ->
  send snap (Ev (ORDER_PLACED o)) = snap.
Proof.
  destruct snap as [s c]. intros Hrest. rewrite send_unfold.
  assert (Ht : transition (s, c) (Ev (ORDER_PLACED o)) = (s, c)).
  { destruct s as [| | | | |[| | | | |]|]; reflexivity. }
  rewrite Ht, Hrest. reflexivity.
Qed.

(** X9. The root [ERROR] transition: in every state at rest the state is kept,
    [error] is the event's message and no other field changes. *)
Theorem ERROR_keeps_state (snap : Snapshot) (msg : string) :
  always snap = None ->
  send snap (Ev (ERROR msg)) = (snap.1, assign_error (Some msg) snap.2).
Proof.
  destruct snap as [s c]. intros Hrest. rewrite send_unfold.
  assert (Ht : transition (s, c) (Ev (ERROR msg)) = (s, assign_error (Some msg) c)).
  { destruct s as [| | | | |[| | | | |]|]; reflexivity. }
  rewrite Ht. simpl.
  destruct s as [| | | | |[| | | | |]|]; try reflexivity.
  discriminate Hrest || (unfold always in Hrest; simpl in Hrest;
                         destruct (customer c); discriminate).
Qed.

Lemma linesOf_nonneg (pid : Z) (l : list CartItem) : 0 <= linesOf pid l.
Proof.
  induction l as [|item rest IH]; simpl; [lia|].
  destruct (product_id (product item) =? pid); lia.
Qed.

Lemma linesOf_absent (p : Product) (l : list CartItem) :
  List.find (sameProduct p) l = None -> linesOf (product_id p) l = 0.
Proof.
  induction l as [|item rest IH]; simpl; [reflexivity|].
  unfold sameProduct at 1.
  destruct (product_id (product item) =? product_id p); [discriminate|].
  intros H. rewrite (IH H). reflexivity.
Qed.

Lemma linesOf_present (p : Product) (l : list CartItem) (item : CartItem) :
  List.find (sameProduct p) l = Some item -> 1 <= linesOf (product_id p) l.
Proof.
  induction l as [|x rest IH]; simpl; [discriminate|].
  unfold sameProduct at 1.
  destruct (product_id (product x) =? product_id p).
  - intros _. pose proof (linesOf_nonneg (product_id p) rest). lia.
  - intros H. specialize (IH H). lia.
Qed.

Lemma quantityOf_bump (p : Product) (q pid : Z) (l : list CartItem) :
  quantityOf pid (List.map (fun item =>
                              if sameProduct p item
                              then mkCartItem _ (product item) (quantity item + q)
                              else item) l)
  = quantityOf pid l
    + (if product_id p =? pid then q * linesOf (product_id p) l else 0).
Proof.
  induction l as [|item rest IH]; simpl.
  - destruct (product_id p =? pid); lia.
  - rewrite IH. clear IH.
    destruct (sameProduct p item) eqn:E; unfold sameProduct in E; rewrite E; simpl.
    + apply Z.eqb_eq in E. rewrite E. destruct (product_id p =? pid); lia.
    + destruct (product_id (product item) =? pid), (product_id p =? pid); lia.
Qed.





End MachineInvariants.

(* ===================================================================== *)
(** * The other operations of the session store                          *)
(* ===================================================================== *)

Section ManagerOpsFacts.
Context `{api : ApiTypes}.
Import Manager ManagerOps.

(** What [getConversation] answers when the key is stored. *)
Lemma getConversation_stored (m : gmap string ConversationState) (uid : string)
    (s : ConversationState) (now stamp : Z) :
  m !! uid = Some s ->
  getConversation m uid now stamp
  = if isSessionValid now s
    then (setLastActivity stamp s, <[uid := setLastActivity stamp s]> m)
    else (newConversation uid stamp, <[uid := newConversation uid stamp]> m).
Proof. intros H. unfold getConversation. rewrite H. reflexivity. Qed.

Lemma getConversation_holds (m : gmap string ConversationState) (uid : string)
    (now stamp : Z) :
  (getConversation m uid now stamp).2 !! uid
  = Some (getConversation m uid now stamp).1.
Proof.
  unfold getConversation. destruct (m !! uid) as [s|];
    [destruct (isSessionValid now s)|]; simpl; apply lookup_insert_eq.
Qed.

(** X14. Every access renews the session: a second [getConversation] made less
    than 30 minutes after the first one hands out the session of the first,
    whatever its age, and one made 30 minutes after or later starts anew. *)
Theorem getConversation_keeps_alive (m : gmap string ConversationState)
    (uid : string) (now1 stamp1 now2 stamp2 : Z) :
  let first := getConversation m uid now1 stamp1 in
  let second := getConversation first.2 uid now2 stamp2 in
  (now2 - stamp1 < 1800000 -> second.1 = setLastActivity stamp2 first.1)
  /\ (1800000 <= now2 - stamp1 -> second.1 = newConversation uid stamp2).
Proof.
  intros first second.
  assert (Hl : lastActivity first.1 = stamp1).
  { subst first. unfold getConversation. destruct (m !! uid) as [s|];
      [destruct (isSessionValid now1 s)|]; reflexivity. }
  subst second.
  rewrite (getConversation_stored _ _ _ _ _ (getConversation_holds m uid now1 stamp1)).
  fold first. unfold isSessionValid, SESSION_TIMEOUT. rewrite Hl.
  change (30 * 60 * 1000) with 1800000.
  destruct (Z.ltb_spec (now2 - stamp1) 1800000); simpl; split; intros; try lia;
    reflexivity.
Qed.

(** X15. After [resetConversation] the next access starts a new session,
    whatever was stored and whenever it was last used. *)
Theorem reset_then_get_is_new (m : gmap string ConversationState)
    (uid : string) (now stamp : Z) :
  getConversation (resetConversation m uid) uid now stamp
  = (newConversation uid stamp,
     <[uid := newConversation uid stamp]> m).
Proof.
  unfold getConversation, resetConversation. rewrite lookup_delete_eq.
  rewrite insert_delete_eq. reflexivity.
Qed.

(** The loop of the sweep, entry by entry. *)
Lemma sweep_fold (now : Z) (l : list (string * ConversationState))
    (m : gmap string ConversationState) (uid : string) :
  let expired := fun e : string * ConversationState =>
                   e.1 = uid /\ SESSION_TIMEOUT < now - lastActivity e.2 in
  (Exists expired l -> List.fold_left (sweepEntry now) l m !! uid = None)
  /\ (~ Exists expired l -> List.fold_left (sweepEntry now) l m !! uid = m !! uid).
Proof.
  intros expired. revert m.
  induction l as [|e rest IH]; intros m.
  - split; [intros H; inversion H | reflexivity].
  - simpl. destruct (IH (sweepEntry now m e)) as [IH1 IH2]. split.
    + intros H. apply Exists_cons in H.
      destruct (decide (Exists expired rest)) as [Hr|Hr]; [exact (IH1 Hr)|].
      destruct H as [[He Ht]|H]; [|contradiction].
      rewrite (IH2 Hr). unfold sweepEntry.
      destruct (Z.ltb_spec SESSION_TIMEOUT (now - lastActivity e.2)); [|lia].
      rewrite He. apply lookup_delete_eq.
    + intros H. rewrite Exists_cons in H.
      rewrite IH2 by tauto. unfold sweepEntry.
      destruct (Z.ltb_spec SESSION_TIMEOUT (now - lastActivity e.2)) as [Ht|Ht];
        [|reflexivity].
      apply lookup_delete_ne. intros He. apply H. left. split; assumption.
Qed.

Lemma cleanupExpiredSessions_lookup_aux (m : gmap string ConversationState)
    (now : Z) (uid : string) :
  cleanupExpiredSessions m now !! uid
  = match m !! uid with
    | Some s => if decide (1800000 < now - lastActivity s) then None else Some s
    | None => None
    end.
Proof.
  unfold cleanupExpiredSessions.
  destruct (sweep_fold now (map_to_list m) m uid) as [H1 H2].
  change SESSION_TIMEOUT with 1800000 in H1, H2.
  destruct (m !! uid) as [s|] eqn:E.
  - destruct (decide (1800000 < now - lastActivity s)) as [D|D].
    + apply H1. apply Exists_exists. exists (uid, s). split.
      * apply elem_of_map_to_list. exact E.
      * split; [reflexivity | exact D].
    + rewrite H2; [reflexivity|]. intros Hex. apply Exists_exists in Hex.
      destruct Hex as ([k s'] & Hin & Hk & Ht). simpl in *. subst k.
      apply elem_of_map_to_list in Hin. congruence.
  - rewrite H2; [reflexivity|]. intros Hex. apply Exists_exists in Hex.
    destruct Hex as ([k s'] & Hin & Hk & Ht). simpl in *. subst k.
    apply elem_of_map_to_list in Hin. congruence.
Qed.

(** X16. [cleanupExpiredSessions] deletes exactly the sessions idle for more
    than 30 minutes and leaves every other session as it is. *)
Theorem cleanupExpiredSessions_lookup (m : gmap string ConversationState)
    (now : Z) (uid : string) :
  cleanupExpiredSessions m now !! uid
  = match m !! uid with
    | Some s => if decide (1800000 < now - lastActivity s) then None else Some s
    | None => None
    end.
Proof. apply cleanupExpiredSessions_lookup_aux. Qed.

(** X17. The sweep and the access disagree at the boundary: a session idle for
    exactly 30 minutes survives the sweep, and the access made at the same
    instant replaces it by a new one. *)
Theorem sweep_keeps_session_that_get_replaces
    (m : gmap string ConversationState) (uid : string) (s : ConversationState)
    (now stamp : Z) :
  m !! uid = Some s ->
  now - lastActivity s = 1800000 ->
  cleanupExpiredSessions m now !! uid = Some s
  /\ (getConversation (cleanupExpiredSessions m now) uid now stamp).1
     = newConversation uid stamp.
Proof.
  intros Hs Hidle.
  assert (Hk : cleanupExpiredSessions m now !! uid = Some s).
  { rewrite cleanupExpiredSessions_lookup_aux, Hs.
    destruct (decide (1800000 < now - lastActivity s)); [lia | reflexivity]. }
  split; [exact Hk|].
  rewrite (getConversation_stored _ _ _ _ _ Hk).
  unfold isSessionValid, SESSION_TIMEOUT. change (30 * 60 * 1000) with 1800000.
  destruct (Z.ltb_spec (now - lastActivity s) 1800000); [lia | reflexivity].
Qed.

(** *** The cart of a session *)

Lemma addFirst_None (p : Product) (q : Z) (l : list CartItem) :
  addFirst p q l = None -> ~ In (product_id p) (lineIds l).
Proof.
  induction l as [|item rest IH]; simpl; [tauto|].
  destruct (Z.eqb_spec (product_id (product item)) (product_id p)) as [E|E];
    [discriminate|].
  destruct (addFirst p q rest); [discriminate|].
  intros _ [H|H]; [congruence | exact (IH eq_refl H)].
Qed.

Lemma addFirst_Some (p : Product) (q : Z) (l l' : list CartItem) :
  addFirst p q l = Some l' ->
  lineIds l' = lineIds l
  /\ forall pid, quantityOf pid l'
                 = quantityOf pid l + (if product_id p =? pid then q else 0).
Proof.
  revert l'. induction l as [|item rest IH]; simpl; intros l'; [discriminate|].
  destruct (Z.eqb_spec (product_id (product item)) (product_id p)) as [E|E].
  - intros [= <-]. simpl. split; [reflexivity|]. intros pid.
    rewrite E. destruct (product_id p =? pid); lia.
  - destruct (addFirst p q rest) as [rest'|]; [|discriminate].
    intros [= <-]. destruct (IH rest' eq_refl) as [Hids Hq]. simpl.
    split; [rewrite Hids; reflexivity|]. intros pid. rewrite Hq. lia.
Qed.


Lemma filter_other_ids (productId : Z) (l : list CartItem) :
  let l' := List.filter
              (fun item => negb (product_id (product item) =? productId)) l in
  ~ In productId (lineIds l')
  /\ quantityOf productId l' = 0
  /\ (forall pid, pid <> productId -> quantityOf pid l' = quantityOf pid l)
  /\ (~ In productId (lineIds l) -> l' = l).
Proof.
  induction l as [|item rest IH]; simpl.
  - repeat split; tauto.
  - destruct IH as (H1 & H2 & H3 & H4).
    destruct (Z.eqb_spec (product_id (product item)) productId) as [E|E]; simpl.
    + split; [exact H1|]. split; [exact H2|]. split.
      * intros pid Hp. rewrite (H3 pid Hp).
        destruct (Z.eqb_spec (product_id (product item)) pid); [congruence | lia].
      * intros Hno. exfalso. apply Hno. left. exact E.
    + split; [intros [H|H]; [congruence | exact (H1 H)]|].
      split.
      * destruct (Z.eqb_spec (product_id (product item)) productId);
          [congruence | rewrite H2; reflexivity].
      * split; [intros pid Hp; rewrite (H3 pid Hp); reflexivity|].
        intros Hno. rewrite H4 by tauto. reflexivity.
Qed.

(** X19. [removeFromCart] of the session store: afterwards the stored cart has
    no line of the product, the totals of the other products are as before,
    and a cart that had no line of the product is unchanged. *)
Theorem removeFromCart_removes_product (m : gmap string ConversationState)
    (uid : string) (productId : Z) (now stamp stamp2 : Z) :
  let before := (getConversation m uid now stamp).1 in
  exists after,
    removeFromCart m uid productId now stamp stamp2 !! uid = Some after
    /\ ~ In productId (lineIds (cart after))
    /\ quantityOf productId (cart after) = 0
    /\ (forall pid, pid <> productId ->
          quantityOf pid (cart after) = quantityOf pid (cart before))
    /\ (~ In productId (lineIds (cart before)) -> cart after = cart before).
Proof.
  intros before. subst before. unfold removeFromCart.
  destruct (getConversation m uid now stamp) as [conv m'] eqn:Eg. simpl.
  eexists. split; [apply lookup_insert_eq|]. simpl.
  apply filter_other_ids.
Qed.

End ManagerOpsFacts.

(* ===================================================================== *)
(** * Properties of the string helpers                                   *)
(* ===================================================================== *)

Section JsFacts.

Import JsText.

Lemma includes_char (sep : ascii) (s : string) :
  Js.includes s (String sep EmptyString) = hasChar sep s.
Proof.
  induction s as [|ch rest IH]; [reflexivity|].
  simpl. rewrite IH.
  destruct (Ascii.ascii_dec sep ch) as [->|Hne].
  - rewrite Ascii.eqb_refl. destruct rest; reflexivity.
  - assert (H : Ascii.eqb ch sep = false)
      by (apply Ascii.eqb_neq; congruence).
    rewrite H. reflexivity.
Qed.

Lemma split_not_nil (sep : ascii) (s : string) : JsText.split sep s <> [].
Proof.
  destruct s as [|ch rest]; simpl; [discriminate|].
  destruct (Ascii.eqb ch sep); [discriminate|].
  destruct (JsText.split sep rest); discriminate.
Qed.

(** [join] undoes [split]. *)
Lemma join_split (sep : ascii) (s : string) :
  JsText.join (String sep EmptyString) (JsText.split sep s) = s.
Proof.
  induction s as [|ch rest IH]; [reflexivity|].
  simpl JsText.split.
  destruct (Ascii.eqb ch sep) eqn:E.
  - apply Ascii.eqb_eq in E. subst ch.
    destruct (JsText.split sep rest) as [|x xs] eqn:Es;
      [exact (False_ind _ (split_not_nil sep rest Es))|].
    change (JsText.join (String sep "") ("" :: x :: xs))
      with (String sep (JsText.join (String sep "") (x :: xs))).
    rewrite IH. reflexivity.
  - destruct (JsText.split sep rest) as [|x xs] eqn:Es;
      [exact (False_ind _ (split_not_nil sep rest Es))|].
    destruct xs as [|y ys].
    + simpl in *. rewrite IH. reflexivity.
    + change (JsText.join (String sep "") (String ch x :: y :: ys))
        with (String ch (JsText.join (String sep "") (x :: y :: ys))).
      rewrite IH. reflexivity.
Qed.

(** The two shapes of a split: no separator and one piece, or a first piece
    without separator followed by the separator and the joined rest. *)
Lemma split_cases (sep : ascii) (s : string) :
  (hasChar sep s = false /\ JsText.split sep s = [s])
  \/ (hasChar sep s = true
      /\ exists h t, JsText.split sep s = h :: t /\ t <> []
           /\ hasChar sep h = false
           /\ s = (h ++ String sep (JsText.join (String sep "") t))%string).
Proof.
  induction s as [|ch rest IH]; [left; split; reflexivity|].
  simpl JsText.split. simpl hasChar.
  destruct (Ascii.eqb ch sep) eqn:E.
  - right. split; [reflexivity|]. apply Ascii.eqb_eq in E. subst ch.
    exists EmptyString, (JsText.split sep rest).
    split; [reflexivity|]. split; [apply split_not_nil|].
    split; [reflexivity|]. simpl. rewrite join_split. reflexivity.
  - simpl. destruct IH as [[Hno Hs]|(Hyes & h & t & Hs & Ht & Hh & Heq)].
    + left. rewrite Hs. split; [exact Hno | reflexivity].
    + right. split; [exact Hyes|]. rewrite Hs.
      exists (String ch h), t. split; [reflexivity|]. split; [exact Ht|].
      split; [simpl; rewrite E; exact Hh|]. rewrite Heq at 1. reflexivity.
Qed.

Lemma lastChar_app_sep (h : string) (sep : ascii) :
  JsText.lastChar (h ++ String sep EmptyString) = Some sep.
Proof.
  induction h as [|ch rest IH]; [reflexivity|].
  simpl. destruct (rest ++ String sep "")%string eqn:E; [|exact IH].
  destruct rest; discriminate.
Qed.

(** What [trim] answers neither starts nor ends with white space. *)
Lemma trimEnd_last (s : string) :
  match JsText.lastChar (Js.trimEnd s) with
  | Some ch => Js.isWhiteSpace ch = false
  | None => True
  end.
Proof.
  induction s as [|ch rest IH]; [exact I|].
  simpl Js.trimEnd. destruct (Js.trimEnd rest) as [|a b] eqn:E.
  - destruct (Js.isWhiteSpace ch) eqn:W; [exact I | exact W].
  - exact IH.
Qed.

Lemma trim_last (s : string) :
  match JsText.lastChar (Js.trim s) with
  | Some ch => Js.isWhiteSpace ch = false
  | None => True
  end.
Proof. apply trimEnd_last. Qed.

End JsFacts.

(* ===================================================================== *)
(** * Properties of the other handlers                                   *)
(* ===================================================================== *)

Section HandlerFacts.
Context `{api : ApiTypes}.
Import Router Handlers.

Lemma eventsSent_none (t : Task unit) (w : World) :
  sent (t w).2 = sent w -> eventsSent t w = [].
Proof.
  intros H. apply eventsSent_app. rewrite List.app_nil_r. exact H.
Qed.

Lemma repliesOf_app (t : Task unit) (w : World) (rs : list Reply) :
  outbox (t w).2 = outbox w ++ rs -> repliesOf t w = rs.
Proof.
  unfold repliesOf. intros ->. apply drop_app_length.
Qed.

(** X20. [handleCollectingNameState] sends one [PROVIDE_NAME] for every input,
    the empty one included.  The first name is the trimmed input up to its
    first space and holds no space; the last name is what follows that
    space, so that the two names joined by a space are the trimmed input; an
    input of one word is taken as both names. *)
Theorem collectingName_splits_name (uid input : string) (w : World) :
  let full := Js.trim input in
  exists first last,
    eventsSent (handleCollectingNameState uid input) w
      = [Machine.Ev (Machine.PROVIDE_NAME first last)]
    /\ actor (handleCollectingNameState uid input w).2
       = Machine.send (actor w) (Machine.Ev (Machine.PROVIDE_NAME first last))
    /\ Js.includes first " " = false
    /\ (Js.includes full " " = false -> first = full /\ last = full)
    /\ (Js.includes full " " = true ->
          (first ++ " " ++ last)%string = full /\ last <> EmptyString).
Proof.
  intros full. unfold handleCollectingNameState. fold full.
  rewrite !includes_char.
  destruct (split_cases " " full) as [[Hno Hs]|(Hyes & h & t & Hs & Ht & Hh & Heq)];
    rewrite Hs; simpl List.hd; simpl List.tl.
  - exists full, full. simpl JsText.join. unfold JsText.orElse.
    split; [apply eventsSent_app; reflexivity|]. split; [reflexivity|].
    rewrite includes_char. split; [exact Hno|]. split; [tauto|].
    rewrite Hno. discriminate.
  - assert (Hrest : JsText.join " " t <> EmptyString).
    { intros Hempty. rewrite Hempty in Heq.
      pose proof (trim_last input) as Hlast. fold full in Hlast.
      rewrite Heq, lastChar_app_sep in Hlast. discriminate Hlast. }
    exists h, (JsText.join " " t).
    assert (Hor : JsText.orElse (JsText.join " " t) h = JsText.join " " t).
    { unfold JsText.orElse. destruct (JsText.join " " t); [congruence | reflexivity]. }
    rewrite Hor.
    split; [apply eventsSent_app; reflexivity|]. split; [reflexivity|].
    rewrite includes_char. split; [exact Hh|]. split.
    + rewrite Hyes. discriminate.
    + intros _. split; [symmetry; exact Heq | exact Hrest].
Qed.

(** X21. [handleReviewingCartState] on [checkout] with an empty cart: the guard
    of the machine refuses the event and the actor stays in [reviewingCart],
    but the handler goes on with the checkout and asks for the first name
    (or, for a customer the backend knows, shows the confirmation of an empty
    order). *)
Theorem reviewingCart_checkout_empty_cart (env : Collaborators) (uid : string)
    (w : World) (c : Machine.ConversationContext) :
  actor w = (Machine.reviewingCart, c) ->
  Machine.cart c = [] ->
  actor (handleReviewingCartState env uid "checkout" w).2 = (Machine.reviewingCart, c)
  /\ repliesOf (handleReviewingCartState env uid "checkout") w
     = match getCustomerByPhone env uid with
       | Some _ =>
           [ConfirmationText uid [] (Machine.customer c);
            Buttons uid "Confirm your order:" ["confirm_order"; "cancel_order"]]
       | None =>
           [Text uid ("I need a few details to complete your order." ++ lf ++ lf
                      ++ "What's your first name?")%string]
       end.
Proof.
  intros Ha Hc. unfold handleReviewingCartState.
  change (String.eqb "checkout" "checkout") with true. cbv iota.
  unfold handleCheckoutState, confirmOrder, actorSend, getSnapshot, reply,
    mbind, task_bind. cbv beta iota.
  assert (Hstay : Machine.send (actor w) (Machine.Ev Machine.CHECKOUT)
                  = (Machine.reviewingCart, c)).
  { rewrite Ha, send_unfold. unfold Machine.transition.
    destruct c as [u l cu po sc ci er]. simpl in Hc. subst l. reflexivity. }
  destruct (getCustomerByPhone env uid) as [found|]; cbv beta iota; simpl actor.
  - rewrite Hstay.
    destruct (CUSTOMER_FOUND_unhandled (Machine.reviewingCart, c) found)
      as (_ & _ & _ & _ & Hsame).
    rewrite (Hsame eq_refl). simpl. split; [reflexivity|].
    apply repliesOf_app. simpl. rewrite Hstay.
    rewrite (Hsame eq_refl). simpl. rewrite Hc, <- List.app_assoc. reflexivity.
  - simpl. rewrite Hstay. split; [reflexivity|].
    apply repliesOf_app. reflexivity.
Qed.

(** X22. [handleConfirmingOrderState] with the actor in
    [checkout.confirmingOrder]: [confirm_order] starts the placing of the
    order, [cancel_order] leads back to [reviewingCart] with the context (the
    cart included) as it was, and any other input sends nothing to the
    actor. *)
Theorem confirmingOrder_actions (env : Collaborators) (uid action : string)
    (w : World) (c : Machine.ConversationContext) :
  actor w = (Machine.checkout Machine.confirmingOrder, c) ->
  let w' := (handleConfirmingOrderState env uid action w).2 in
  (action = "confirm_order" ->
     actor w' = (Machine.checkout Machine.placingOrder, c))
  /\ (action = "cancel_order" -> actor w' = (Machine.reviewingCart, c))
  /\ (action <> "confirm_order" -> action <> "cancel_order" ->
        actor w' = actor w
        /\ eventsSent (handleConfirmingOrderState env uid action) w = []).
Proof.
  intros Ha w'. subst w'. unfold handleConfirmingOrderState.
  destruct (String.eqb_spec action "confirm_order") as [E1|E1].
  - split; [intros _; simpl; rewrite Ha; reflexivity|].
    split; [intros E2; rewrite E2 in E1; discriminate | tauto].
  - split; [tauto|].
    destruct (String.eqb_spec action "cancel_order") as [E2|E2].
    + split; [|tauto]. intros _.
      unfold mbind, task_bind, actorSend, reply. cbv beta iota.
      match goal with
      | |- actor (showCart env uid ?w1).2 = _ =>
          rewrite (proj2 (showCart_sent env uid w1))
      end.
      simpl. rewrite Ha. reflexivity.
    + split; [tauto|]. intros _ _.
      split; [reflexivity | apply eventsSent_none; reflexivity].
Qed.

(** X23. [processNaturalOrderRequest] without items: when the catalog cannot be
    fetched, or when the parser finds no pair, nothing is sent to the actor
    and the only reply is the apology, respectively the request to be more
    specific. *)
Theorem natural_order_without_items (env : Collaborators) (uid message : string)
    (w : World) :
  (forall e, getProducts env = inr e ->
     (processNaturalOrderRequest env uid message w).2
     = mkWorld (actor w) (sent w)
         (outbox w ++ [Text uid
            "Sorry, I had trouble processing your order. Please try selecting items from the menu."]))
  /\ (forall products,
        getProducts env = inl products ->
        parseOrderFromMessage env message products = [] ->
        (processNaturalOrderRequest env uid message w).2
        = mkWorld (actor w) (sent w)
            (outbox w ++ [Text uid
               "I couldn't understand your order. Could you please be more specific about what you'd like to order?"])).
Proof.
  split.
  - intros e He. unfold processNaturalOrderRequest, tryCatch, await.
    rewrite He. unfold mbind, task_bind. reflexivity.
  - intros products Hp Hi. unfold processNaturalOrderRequest, tryCatch, await.
    rewrite Hp. unfold mbind, task_bind. cbv beta iota. rewrite Hi. reflexivity.
Qed.

Lemma addEvents_are_adds (products : list Product) (items : list OrderItem) :
  Forall isAddToCart (addEvents products items).
Proof.
  induction items as [|item rest IH]; [constructor|].
  unfold addEvents. simpl List.flat_map. fold (addEvents products rest).
  destruct (findByName products item); [constructor; [exact I | exact IH] | exact IH].
Qed.


Section DispatcherFacts.
Variable detectIntent : string -> Intent.
Variable generateResponse : Intent -> string.
Variable sendSynthesizedSpeech : string -> string -> Task unit.
Variable handleGreetingState : string -> string -> Intent -> Task unit.
Variable handleViewingMenuState : string -> string -> Intent -> Task unit.
Variable handleSelectingProductsState : string -> string -> Intent -> Task unit.
Variable handleOrderCompletedState : string -> string -> Intent -> Task unit.

Local Abbreviation dispatch :=
  (processMessageWithStateMachine detectIntent generateResponse
     sendSynthesizedSpeech handleGreetingState handleViewingMenuState
     handleSelectingProductsState handleOrderCompletedState).

Lemma RESET_target (snap : Machine.Snapshot) :
  Machine.send snap (Machine.Ev Machine.RESET)
  = (Machine.idle, Machine.resetContext snap.2).
Proof.
  destruct snap as [s c].
  destruct s as [| | | | |[| | | | |]|]; reflexivity.
Qed.




End DispatcherFacts.

End HandlerFacts.

(* ===================================================================== *)
(** * Properties of the encoding table                                   *)
(* ===================================================================== *)

Section AudioFacts.
Import JsText Audio.

Lemma lowerChar_idem (ch : ascii) : lowerChar (lowerChar ch) = lowerChar ch.
Proof. destruct ch as [[] [] [] [] [] [] [] []]; vm_compute; reflexivity. Qed.

Lemma toLowerCase_idem (s : string) : toLowerCase (toLowerCase s) = toLowerCase s.
Proof.
  induction s as [|ch rest IH]; [reflexivity|].
  simpl. rewrite lowerChar_idem, IH. reflexivity.
Qed.

(** X28. [getAudioEncoding] does not depend on the letter case of the MIME type.
    It answers one of the six encoding names, [ENCODING_UNSPECIFIED] for
    every type that is not in the table, with two exceptions: for
    [constructor] and [__proto__] (in lower case) the read finds a member of
    [Object.prototype] and that member is answered instead of a name. *)
Theorem getAudioEncoding_result (mimeType : string) :
  let key := toLowerCase mimeType in
  getAudioEncoding (toLowerCase mimeType) = getAudioEncoding mimeType
  /\ (key = "constructor" \/ key = "__proto__" ->
        getAudioEncoding mimeType = Inherited key)
  /\ (key <> "constructor" -> key <> "__proto__" ->
        exists encoding,
          getAudioEncoding mimeType = Own encoding
          /\ In encoding knownEncodings
          /\ (ownProperty key encodingMap = None ->
                encoding = "ENCODING_UNSPECIFIED")).
Proof.
  intros key. unfold getAudioEncoding.
  rewrite toLowerCase_idem. fold key.
  pose proof (toLowerCase_idem mimeType) as Hidem. fold key in Hidem.
  clearbody key. split; [reflexivity|]. split.
  - intros [->| ->]; vm_compute; reflexivity.
  - intros H1 H2. unfold encodingMap, objectPrototypeKeys, knownEncodings.
    cbn [ownProperty existsb].
    repeat match goal with
           | |- context [String.eqb ?a ?b] =>
               destruct (String.eqb_spec a b) as [?E|?E];
                 [subst key;
                  first [ exfalso; apply H1; reflexivity
                        | exfalso; apply H2; reflexivity
                        | vm_compute in Hidem; discriminate Hidem
                        | eexists; split; [reflexivity|]; split;
                          [vm_compute; tauto | intros H; discriminate H] ]|]
           end.
    cbv iota. eexists. split; [reflexivity|].
    split; [vm_compute; tauto | reflexivity].
Qed.

End AudioFacts.

(* ===================================================================== *)
(** * Concrete runs of the further properties                            *)
(* ===================================================================== *)

Section MoreMachineRuns.
#[local] Existing Instance demoApi.
Import Machine.



Lemma createCustomer_input_complete_witness :
  reachable "15550001" (run Demo2.start Demo2.untilCreating)
  /\ (run Demo2.start Demo2.untilCreating).1 = checkout creatingCustomer
  /\ exists first last mail,
       customerInfo (run Demo2.start Demo2.untilCreating).2
       = mkCustomerInfo (Some first) (Some last) (Some mail).
Proof.
  assert (H1 : reachable "15550001" (run Demo2.start Demo2.untilCreating))
    by (apply reachable_run; constructor).
  assert (H2 : (run Demo2.start Demo2.untilCreating).1 = checkout creatingCustomer)
    by reflexivity.
  split; [exact H1|]. split; [exact H2|].
  exact (createCustomer_input_complete _ _ H1 H2).
Defined.


Lemma error_kept_until_RESET_witness :
  error (checkout confirmingOrder, Demo2.failedOnce).2
    = Some "Failed to create order: Unknown error"
  /\ Ev CONFIRM_ORDER <> Ev RESET
  /\ error (send (checkout confirmingOrder, Demo2.failedOnce) (Ev CONFIRM_ORDER)).2
     <> None.
Proof.
  assert (H1 : error (checkout confirmingOrder, Demo2.failedOnce).2
               = Some "Failed to create order: Unknown error") by reflexivity.
  assert (H2 : Ev CONFIRM_ORDER <> Ev RESET) by discriminate.
  split; [exact H1|]. split; [exact H2|].
  exact (error_kept_until_RESET _ _ _ H1 H2).
Defined.

Lemma CANCEL_ORDER_keeps_context_witness :
  always (checkout confirmingOrder, Demo.knownCustomer) = None
  /\ send (checkout confirmingOrder, Demo.knownCustomer) (Ev CANCEL_ORDER)
     = (reviewingCart, Demo.knownCustomer).
Proof.
  assert (H1 : always (checkout confirmingOrder, Demo.knownCustomer) = None)
    by reflexivity.
  split; [exact H1|].
  exact (CANCEL_ORDER_keeps_context _ H1).
Defined.

Lemma ORDER_PLACED_ignored_witness :
  always (checkout placingOrder, Demo.knownCustomer) = None
  /\ send (checkout placingOrder, Demo.knownCustomer) (Ev (ORDER_PLACED 1001))
     = (checkout placingOrder, Demo.knownCustomer).
Proof.
  assert (H1 : always (checkout placingOrder, Demo.knownCustomer) = None)
    by reflexivity.
  split; [exact H1|].
  exact (ORDER_PLACED_ignored _ 1001 H1).
Defined.

Lemma ERROR_keeps_state_witness :
  always (selectingProducts, Demo.knownCustomer) = None
  /\ send (selectingProducts, Demo.knownCustomer) (Ev (ERROR "timeout"))
     = (selectingProducts, assign_error (Some "timeout") Demo.knownCustomer).
Proof.
  assert (H1 : always (selectingProducts, Demo.knownCustomer) = None)
    by reflexivity.
  split; [exact H1|].
  exact (ERROR_keeps_state _ "timeout" H1).
Defined.



End MoreMachineRuns.

Section MoreRouterRuns.
#[local] Existing Instance demoApi.
Import Router Handlers.

Lemma sweep_keeps_session_that_get_replaces_witness :
  Demo2.store !! "15550001" = Some Demo.oldSession
  /\ 1800000 - Manager.lastActivity Demo.oldSession = 1800000
  /\ ManagerOps.cleanupExpiredSessions Demo2.store 1800000 !! "15550001"
     = Some Demo.oldSession
  /\ (Manager.getConversation
        (ManagerOps.cleanupExpiredSessions Demo2.store 1800000)
        "15550001" 1800000 1800001).1
     = Manager.newConversation "15550001" 1800001.
Proof.
  assert (H1 : Demo2.store !! "15550001" = Some Demo.oldSession) by reflexivity.
  assert (H2 : 1800000 - Manager.lastActivity Demo.oldSession = 1800000)
    by reflexivity.
  split; [exact H1|]. split; [exact H2|].
  exact (sweep_keeps_session_that_get_replaces
           Demo2.store "15550001" Demo.oldSession 1800000 1800001 H1 H2).
Defined.

Lemma reviewingCart_checkout_empty_cart_witness :
  actor Demo2.reviewingEmptyCart
    = (Machine.reviewingCart, Machine.initialContext "15550001")
  /\ Machine.cart (Machine.initialContext "15550001") = []
  /\ actor (handleReviewingCartState Demo2.envUnknownSender "15550001"
              "checkout" Demo2.reviewingEmptyCart).2
     = (Machine.reviewingCart, Machine.initialContext "15550001").
Proof.
  assert (H1 : actor Demo2.reviewingEmptyCart
               = (Machine.reviewingCart, Machine.initialContext "15550001"))
    by reflexivity.
  assert (H2 : Machine.cart (Machine.initialContext "15550001") = [])
    by reflexivity.
  split; [exact H1|]. split; [exact H2|].
  exact (proj1 (reviewingCart_checkout_empty_cart
                  Demo2.envUnknownSender "15550001" Demo2.reviewingEmptyCart
                  (Machine.initialContext "15550001") H1 H2)).
Defined.

Lemma confirmingOrder_actions_witness :
  actor Demo2.confirming
    = (Machine.checkout Machine.confirmingOrder, Demo.knownCustomer)
  /\ actor (handleConfirmingOrderState Demo.env "15550001" "cancel_order"
              Demo2.confirming).2
     = (Machine.reviewingCart, Demo.knownCustomer).
Proof.
  assert (H1 : actor Demo2.confirming
               = (Machine.checkout Machine.confirmingOrder, Demo.knownCustomer))
    by reflexivity.
  split; [exact H1|].
  exact (proj1 (proj2 (confirmingOrder_actions
                         Demo.env "15550001" "cancel_order" Demo2.confirming
                         Demo.knownCustomer H1)) eq_refl).
Defined.





End MoreRouterRuns.
